(** * Aerodynamic acceleration partials (Tudat)

    A shallow embedding of [AerodynamicAccelerationPartial]
    (Tudat/Astrodynamics/OrbitDetermination/AccelerationPartials/
    aerodynamicAccelerationPartial.h) and the properties of its numerical
    state partial, its signed accessors and its dependency queries.

    A C++ [double] is a primitive binary64 [float]; the arithmetic of the
    source is the IEEE 754 arithmetic of [PrimFloat], so not-a-number and
    the infinities behave here as they do in the program. *)

From Stdlib Require Import Floats ZArith List String Bool Lia.
Import ListNotations.

Local Open Scope Z_scope.

(** ** Classifying doubles *)

(** [std::isfinite] *)
Definition isfinite (x : float) : bool := PrimFloat.is_finite x.

(** [std::isnan] *)
Definition isnan (x : float) : bool := PrimFloat.is_nan x.

(** ** Eigen types used by the class *)

(** [Eigen::Vector3d] *)
Record Vector3d := mkVector3d { v3x : float; v3y : float; v3z : float }.

(** [v( r )] for [r] in 0..2. *)
Definition coeff3 (v : Vector3d) (r : nat) : float :=
  match r with
  | 0%nat => v3x v
  | 1%nat => v3y v
  | _ => v3z v
  end.

(** [a - b], coefficient by coefficient. *)
Definition Vector3d_sub (a b : Vector3d) : Vector3d :=
  mkVector3d (v3x a - v3x b) (v3y a - v3y b) (v3z a - v3z b).

(** [v / s] *)
Definition Vector3d_div (v : Vector3d) (s : float) : Vector3d :=
  mkVector3d (v3x v / s) (v3y v / s) (v3z v / s).

(** [v * s] *)
Definition Vector3d_scale (v : Vector3d) (s : float) : Vector3d :=
  mkVector3d (v3x v * s) (v3y v * s) (v3z v * s).

(** [Eigen::Vector3d::UnitX( )] *)
Definition UnitX : Vector3d := mkVector3d 1 0 0.

(** Six values of one type: the coefficients of a [Vector6d], or the columns
    of a matrix with six columns. *)
Record Six (A : Type) := mkSix
  { at0 : A; at1 : A; at2 : A; at3 : A; at4 : A; at5 : A }.
Arguments mkSix {A}.
Arguments at0 {A}.
Arguments at1 {A}.
Arguments at2 {A}.
Arguments at3 {A}.
Arguments at4 {A}.
Arguments at5 {A}.

(** Read entry [i]; the callers only use [i] in 0..5. *)
Definition six_get {A} (v : Six A) (i : nat) : A :=
  match i with
  | 0%nat => at0 v
  | 1%nat => at1 v
  | 2%nat => at2 v
  | 3%nat => at3 v
  | 4%nat => at4 v
  | _ => at5 v
  end.

(** Overwrite entry [i]; no entry is written for [i] outside 0..5. *)
Definition six_set {A} (v : Six A) (i : nat) (a : A) : Six A :=
  match i with
  | 0%nat => mkSix a (at1 v) (at2 v) (at3 v) (at4 v) (at5 v)
  | 1%nat => mkSix (at0 v) a (at2 v) (at3 v) (at4 v) (at5 v)
  | 2%nat => mkSix (at0 v) (at1 v) a (at3 v) (at4 v) (at5 v)
  | 3%nat => mkSix (at0 v) (at1 v) (at2 v) a (at4 v) (at5 v)
  | 4%nat => mkSix (at0 v) (at1 v) (at2 v) (at3 v) a (at5 v)
  | 5%nat => mkSix (at0 v) (at1 v) (at2 v) (at3 v) (at4 v) a
  | _ => v
  end.

(** [Eigen::Vector6d] *)
Definition Vector6d : Type := Six float.

(** [Eigen::Matrix< double, 3, 6 >], held by columns. *)
Definition Matrix3x6 : Type := Six Vector3d.

(** [m( r, c )] *)
Definition coeff3x6 (m : Matrix3x6) (r c : nat) : float :=
  coeff3 (six_get m c) r.

(** [Eigen::Quaterniond] *)
Record Quaterniond := mkQuaterniond
  { qw : float; qx : float; qy : float; qz : float }.

(** [Eigen::MatrixXd], and a [Block] view of one: the size and the entries.
    Entries are addressed by (row, column); [coeff] is read only inside the
    size. *)
Record MatrixXd := mkMatrixXd
  { rows : Z; cols : Z; coeff : Z -> Z -> float }.

(** [Eigen::MatrixXd::Zero( rows, cols )] *)
Definition MatrixXd_Zero (r c : Z) : MatrixXd :=
  mkMatrixXd r c (fun _ _ => 0%float).

(** The 3x1 matrix that assigning a [Vector3d] to a [MatrixXd] produces. *)
Definition MatrixXd_of_Vector3d (v : Vector3d) : MatrixXd :=
  mkMatrixXd 3 1 (fun r _ => coeff3 v (Z.to_nat r)).

(** Eigen's precondition on [m.block( startRow, startColumn, 3, 3 )]. *)
Definition block3x3_fits (m : MatrixXd) (startRow startColumn : Z) : bool :=
  (0 <=? startRow) && (startRow <=? rows m - 3) &&
  (0 <=? startColumn) && (startColumn <=? cols m - 3).

(** Is entry (r, c) inside the 3x3 block at (startRow, startColumn)? *)
Definition in_block3x3 (startRow startColumn r c : Z) : bool :=
  (startRow <=? r) && (r <? startRow + 3) &&
  (startColumn <=? c) && (c <? startColumn + 3).

(** [m.block( startRow, startColumn, 3, 3 ) op= src], where [src] is read
    with block-relative indices.  Outside Eigen's precondition the call has
    no defined result: [None]. *)
Definition block3x3_assign (op : float -> float -> float) (m : MatrixXd)
    (startRow startColumn : Z) (src : Z -> Z -> float) : option MatrixXd :=
  if block3x3_fits m startRow startColumn then
    Some (mkMatrixXd (rows m) (cols m)
            (fun r c =>
               if in_block3x3 startRow startColumn r c
               then op (coeff m r c) (src (r - startRow) (c - startColumn))
               else coeff m r c))
  else None.

(** [m.block( 0, startColumn, 3, 3 )] of a 3x6 matrix, block-relative. *)
Definition block3x3_of (m : Matrix3x6) (startColumn : nat) : Z -> Z -> float :=
  fun r c => coeff3x6 m (Z.to_nat r) (startColumn + Z.to_nat c).

(** Two matrices of one size whose entries compare equal ([==]) to the
    negated entries of the other. *)
Definition negations (a b : MatrixXd) : Prop :=
  rows a = rows b /\ cols a = cols b /\
  forall r c,
    (coeff b r c =? - coeff a r c)%float = true /\
    (coeff a r c =? - coeff b r c)%float = true.

(** Does [p] hold of every entry of [m.block( 0, startColumn, 3, 3 )]? *)
Definition block3x3_all (p : float -> bool) (m : Matrix3x6) (startColumn : nat)
  : bool :=
  forallb
    (fun r => forallb (fun c => p (coeff3x6 m r (startColumn + c))) [0; 1; 2]%nat)
    [0; 1; 2]%nat.

(** No entry of [m.block( 0, startColumn, 3, 3 )] is a not-a-number. *)
Definition block3x3_free_of_nan (m : Matrix3x6) (startColumn : nat) : bool :=
  block3x3_all (fun x => negb (isnan x)) m startColumn.

(** Every entry of [m.block( 0, startColumn, 3, 3 )] is finite. *)
Definition block3x3_finite (m : Matrix3x6) (startColumn : nat) : bool :=
  block3x3_all isfinite m startColumn.

(** ** Enumerations and parameters of the surrounding library *)

(** Modelled from the spec: the declaration of
    [estimatable_parameters::EstimatebleParametersEnum] is not part of these
    sources.  The one enumerator the class names is kept; every other kind
    of estimable parameter is [other_estimatable_parameter]. *)
Inductive EstimatebleParametersEnum :=
| constant_drag_coefficient
| other_estimatable_parameter (tag : nat).

Definition EstimatebleParametersEnum_eqb (a b : EstimatebleParametersEnum) : bool :=
  match a, b with
  | constant_drag_coefficient, constant_drag_coefficient => true
  | other_estimatable_parameter m, other_estimatable_parameter n => Nat.eqb m n
  | _, _ => false
  end.

(** [EstimatableParameter< double >]: its identity is the kind and the pair
    (body, point on body) it belongs to. *)
Record EstimatableParameter := mkEstimatableParameter
  { getParameterName : EstimatebleParametersEnum * (string * string) }.

(** Modelled from the spec: the declaration of
    [propagators::IntegratedStateType] is not part of these sources.  The
    body-mass state that the class names is kept next to the translational
    state; every other type is [other_state_type]. *)
Inductive IntegratedStateType :=
| translational_state
| body_mass_state
| other_state_type (tag : nat).

Definition IntegratedStateType_eqb (a b : IntegratedStateType) : bool :=
  match a, b with
  | translational_state, translational_state => true
  | body_mass_state, body_mass_state => true
  | other_state_type m, other_state_type n => Nat.eqb m n
  | _, _ => false
  end.

(** The two frames of [reference_frames::AerodynamicsReferenceFrames] that
    the class names. *)
Inductive AerodynamicsReferenceFrames :=
| inertial_frame
| aerodynamic_frame.

(** Modelled from the spec: [TUDAT_NAN] is defined outside these sources; it
    is the reserved not-a-number time value. *)
Definition TUDAT_NAN : float := nan.

(** ** Calls on the collaborators, and programs that make them *)

(** The objects the class holds by pointer and does not own: the vehicle
    state accessors, the flight conditions and the aerodynamic acceleration
    model.  A call names the member function invoked and its arguments. *)
Inductive call : Type :=
| call_vehicleStateGetFunction
| call_vehicleStateSetFunction (state : Vector6d)
| call_resetCurrentTime (t : float)
| call_updateConditions (t : float)
| call_resetTime (t : float)
| call_updateMembers (t : float)
| call_getAcceleration
| call_getRotationQuaternionBetweenFrames (original target : AerodynamicsReferenceFrames)
| call_getCurrentAirspeed
| call_getCurrentDensity
| call_getReferenceArea.

(** What a call returns. *)
Definition response (c : call) : Type :=
  match c with
  | call_vehicleStateGetFunction => Vector6d
  | call_getAcceleration => Vector3d
  | call_getRotationQuaternionBetweenFrames _ _ => Quaterniond
  | call_getCurrentAirspeed => float
  | call_getCurrentDensity => float
  | call_getReferenceArea => float
  | _ => unit
  end.

(** [std::runtime_error] with its message. *)
Inductive exception :=
| runtime_error (what : string).

(** How a member function ends: it returns, or an exception leaves it. *)
Inductive Outcome (A : Type) :=
| Returned (a : A)
| Threw (e : exception).
Arguments Returned {A}.
Arguments Threw {A}.

(** A member function body: it returns, throws, or calls a collaborator and
    goes on with the answer. *)
Inductive Prog (A : Type) : Type :=
| Ret (a : A)
| Throw (e : exception)
| Call (c : call) (k : response c -> Prog A).
Arguments Ret {A}.
Arguments Throw {A}.
Arguments Call {A}.

Fixpoint bind {A B} (p : Prog A) (f : A -> Prog B) : Prog B :=
  match p with
  | Ret a => f a
  | Throw e => Throw e
  | Call c k => Call c (fun r => bind (k r) f)
  end.

Declare Scope prog_scope.
Delimit Scope prog_scope with prog.
Notation "x <- p ;; q" := (bind p (fun x => q))
  (at level 61, p at next level, right associativity) : prog_scope.
Notation "p ;; q" := (bind p (fun _ => q))
  (at level 61, right associativity) : prog_scope.
Local Open Scope prog_scope.

(** [for( unsigned int i = start; i < start + count; i++ ) body], threading
    the object the body writes. *)
Fixpoint for_loop {S} (count : nat) (start : nat) (body : nat -> S -> Prog S)
    (s : S) : Prog S :=
  match count with
  | O => Ret s
  | Datatypes.S count' =>
      s' <- body start s ;; for_loop count' (Datatypes.S start) body s'
  end.

(** [vehicleStateGetFunction_( )] *)
Definition vehicleStateGetFunction_ : Prog Vector6d :=
  Call call_vehicleStateGetFunction Ret.

(** [vehicleStateSetFunction_( state )] *)
Definition vehicleStateSetFunction_ (state : Vector6d) : Prog unit :=
  Call (call_vehicleStateSetFunction state) Ret.

Module flightConditions_.
Definition resetCurrentTime (t : float) : Prog unit :=
  Call (call_resetCurrentTime t) Ret.
Definition updateConditions (t : float) : Prog unit :=
  Call (call_updateConditions t) Ret.
Definition getRotationQuaternionBetweenFrames
    (original target : AerodynamicsReferenceFrames) : Prog Quaterniond :=
  Call (call_getRotationQuaternionBetweenFrames original target) Ret.
Definition getCurrentAirspeed : Prog float :=
  Call call_getCurrentAirspeed Ret.
Definition getCurrentDensity : Prog float :=
  Call call_getCurrentDensity Ret.
Definition getReferenceArea : Prog float :=
  Call call_getReferenceArea Ret.
End flightConditions_.

Module aerodynamicAcceleration_.
Definition resetTime (t : float) : Prog unit :=
  Call (call_resetTime t) Ret.
Definition updateMembers (t : float) : Prog unit :=
  Call (call_updateMembers t) Ret.
Definition getAcceleration : Prog Vector3d :=
  Call call_getAcceleration Ret.
End aerodynamicAcceleration_.

(** What the collaborators do to the world [W] they live in.  Getters read;
    the other member functions change the world. *)
Class Collaborators (W : Type) := mkCollaborators
  { state_get : W -> Vector6d;
    state_set : Vector6d -> W -> W;
    fc_resetCurrentTime : float -> W -> W;
    fc_updateConditions : float -> W -> W;
    acc_resetTime : float -> W -> W;
    acc_updateMembers : float -> W -> W;
    acc_getAcceleration : W -> Vector3d;
    fc_getRotationQuaternionBetweenFrames :
      AerodynamicsReferenceFrames -> AerodynamicsReferenceFrames -> W -> Quaterniond;
    fc_getCurrentAirspeed : W -> float;
    fc_getCurrentDensity : W -> float;
    fc_getReferenceArea : W -> float }.

(** One call, carried out in world [w]. *)
Definition handle {W} `{Collaborators W} (c : call) (w : W) : response c * W :=
  match c return response c * W with
  | call_vehicleStateGetFunction => (state_get w, w)
  | call_vehicleStateSetFunction x => (tt, state_set x w)
  | call_resetCurrentTime t => (tt, fc_resetCurrentTime t w)
  | call_updateConditions t => (tt, fc_updateConditions t w)
  | call_resetTime t => (tt, acc_resetTime t w)
  | call_updateMembers t => (tt, acc_updateMembers t w)
  | call_getAcceleration => (acc_getAcceleration w, w)
  | call_getRotationQuaternionBetweenFrames a b =>
      (fc_getRotationQuaternionBetweenFrames a b w, w)
  | call_getCurrentAirspeed => (fc_getCurrentAirspeed w, w)
  | call_getCurrentDensity => (fc_getCurrentDensity w, w)
  | call_getReferenceArea => (fc_getReferenceArea w, w)
  end.

(** Run a member function body from world [w]: how it ends, and the world
    it leaves. *)
Fixpoint run {W} `{Collaborators W} {A} (p : Prog A) (w : W) : Outcome A * W :=
  match p with
  | Ret a => (Returned a, w)
  | Throw e => (Threw e, w)
  | Call c k => let (r, w') := handle c w in run (k r) w'
  end.

(** The calls a member function body makes from world [w], in order. *)
Fixpoint trace {W} `{Collaborators W} {A} (p : Prog A) (w : W) : list call :=
  match p with
  | Ret _ => []
  | Throw _ => []
  | Call c k => let (r, w') := handle c w in c :: trace (k r) w'
  end.

(** ** The class *)

(** The data members: the two body names of the base class
    [AccelerationPartial], the step sizes and the cached state partial. *)
Record AerodynamicAccelerationPartial := mkAerodynamicAccelerationPartial
  { acceleratedBody_ : string;
    acceleratingBody_ : string;
    bodyStatePerturbations_ : Vector6d;
    currentAccelerationStatePartials_ : Matrix3x6 }.

(** [currentAccelerationStatePartials_.block( 0, i, 3, 1 ) = column] *)
Definition set_column (self : AerodynamicAccelerationPartial) (i : nat)
    (column : Vector3d) : AerodynamicAccelerationPartial :=
  mkAerodynamicAccelerationPartial
    (acceleratedBody_ self) (acceleratingBody_ self)
    (bodyStatePerturbations_ self)
    (six_set (currentAccelerationStatePartials_ self) i column).

Definition wrtPositionOfAcceleratedBody (self : AerodynamicAccelerationPartial)
    (partialMatrix : MatrixXd) (addContribution : bool)
    (startRow startColumn : Z)
  : option (AerodynamicAccelerationPartial * MatrixXd) :=
  option_map (pair self)
    (if addContribution then
       block3x3_assign PrimFloat.add partialMatrix startRow startColumn
         (block3x3_of (currentAccelerationStatePartials_ self) 0)
     else
       block3x3_assign PrimFloat.sub partialMatrix startRow startColumn
         (block3x3_of (currentAccelerationStatePartials_ self) 0)).

Definition wrtVelocityOfAcceleratedBody (self : AerodynamicAccelerationPartial)
    (partialMatrix : MatrixXd) (addContribution : bool)
    (startRow startColumn : Z)
  : option (AerodynamicAccelerationPartial * MatrixXd) :=
  option_map (pair self)
    (if addContribution then
       block3x3_assign PrimFloat.add partialMatrix startRow startColumn
         (block3x3_of (currentAccelerationStatePartials_ self) 3)
     else
       block3x3_assign PrimFloat.sub partialMatrix startRow startColumn
         (block3x3_of (currentAccelerationStatePartials_ self) 3)).

Definition wrtPositionOfAcceleratingBody (self : AerodynamicAccelerationPartial)
    (partialMatrix : MatrixXd) (addContribution : bool)
    (startRow startColumn : Z)
  : option (AerodynamicAccelerationPartial * MatrixXd) :=
  option_map (pair self)
    (if addContribution then
       block3x3_assign PrimFloat.sub partialMatrix startRow startColumn
         (block3x3_of (currentAccelerationStatePartials_ self) 0)
     else
       block3x3_assign PrimFloat.add partialMatrix startRow startColumn
         (block3x3_of (currentAccelerationStatePartials_ self) 0)).

Definition wrtVelocityOfAcceleratingBody (self : AerodynamicAccelerationPartial)
    (partialMatrix : MatrixXd) (addContribution : bool)
    (startRow startColumn : Z)
  : option (AerodynamicAccelerationPartial * MatrixXd) :=
  option_map (pair self)
    (if addContribution then
       block3x3_assign PrimFloat.sub partialMatrix startRow startColumn
         (block3x3_of (currentAccelerationStatePartials_ self) 3)
     else
       block3x3_assign PrimFloat.add partialMatrix startRow startColumn
         (block3x3_of (currentAccelerationStatePartials_ self) 3)).

Definition isStateDerivativeDependentOnIntegratedNonTranslationalState
    (self : AerodynamicAccelerationPartial)
    (stateReferencePoint : string * string)
    (integratedStateType : IntegratedStateType) : Prog bool :=
  if (String.eqb (fst stateReferencePoint) (acceleratingBody_ self) ||
      String.eqb (fst stateReferencePoint) (acceleratedBody_ self)) &&
     IntegratedStateType_eqb integratedStateType body_mass_state
  then
    Throw (runtime_error
      "Warning, dependency of central gravity on body masses not yet implemented")
  else Ret false.

Section DragCoefficientPartial.

(** [rotation * vector] of Eigen, which is not part of these sources. *)
Variable Quaterniond_mul : Quaterniond -> Vector3d -> Vector3d.

(** The argument is overwritten: the body never reads [accelerationPartial]. *)
Definition computeAccelerationPartialWrtCurrentDragCoefficient
    (self : AerodynamicAccelerationPartial) (accelerationPartial : MatrixXd)
  : Prog MatrixXd :=
  rotationToAerodynamicFrame <-
    flightConditions_.getRotationQuaternionBetweenFrames
      inertial_frame aerodynamic_frame ;;
  currentAirspeed <- flightConditions_.getCurrentAirspeed ;;
  currentDensity <- flightConditions_.getCurrentDensity ;;
  referenceArea <- flightConditions_.getReferenceArea ;;
  Ret (MatrixXd_of_Vector3d
         (Vector3d_scale (Quaterniond_mul rotationToAerodynamicFrame UnitX)
            (0.5 * currentDensity * currentAirspeed * currentAirspeed *
             referenceArea)%float)).

(** The scalar-parameter overload.  An empty [boost::function] is [None]. *)
Definition getParameterPartialFunction (self : AerodynamicAccelerationPartial)
    (parameter : EstimatableParameter)
  : Prog (option (MatrixXd -> Prog MatrixXd) * Z) :=
  let partialFunction : option (MatrixXd -> Prog MatrixXd) := None in
  let numberOfColumns := 0 in
  if EstimatebleParametersEnum_eqb (fst (getParameterName parameter))
       constant_drag_coefficient
  then
    if String.eqb (fst (snd (getParameterName parameter))) (acceleratedBody_ self)
    then
      let partialFunction :=
        Some (computeAccelerationPartialWrtCurrentDragCoefficient self) in
      let numberOfColumns := 1 in
      Ret (partialFunction, numberOfColumns)
    else Ret (partialFunction, numberOfColumns)
  else Ret (partialFunction, numberOfColumns).

End DragCoefficientPartial.

(** The vector-parameter overload. *)
Definition getParameterPartialFunction_VectorXd
    (self : AerodynamicAccelerationPartial) (parameter : EstimatableParameter)
  : Prog (option (MatrixXd -> Prog MatrixXd) * Z) :=
  let partialFunction : option (MatrixXd -> Prog MatrixXd) := None in
  Ret (partialFunction, 0).

Definition update (self : AerodynamicAccelerationPartial) (currentTime : float)
  : Prog AerodynamicAccelerationPartial :=
  nominalState <- vehicleStateGetFunction_ ;;
  self <-
    for_loop 6 0
      (fun i self =>
         let perturbedState := nominalState in
         let perturbedState :=
           six_set perturbedState i
             (six_get perturbedState i +
              six_get (bodyStatePerturbations_ self) i)%float in
         flightConditions_.resetCurrentTime TUDAT_NAN ;;
         aerodynamicAcceleration_.resetTime TUDAT_NAN ;;
         vehicleStateSetFunction_ perturbedState ;;
         flightConditions_.updateConditions currentTime ;;
         aerodynamicAcceleration_.updateMembers currentTime ;;
         upperturbedAcceleration <- aerodynamicAcceleration_.getAcceleration ;;
         let perturbedState := nominalState in
         let perturbedState :=
           six_set perturbedState i
             (six_get perturbedState i -
              six_get (bodyStatePerturbations_ self) i)%float in
         flightConditions_.resetCurrentTime TUDAT_NAN ;;
         aerodynamicAcceleration_.resetTime TUDAT_NAN ;;
         vehicleStateSetFunction_ perturbedState ;;
         flightConditions_.updateConditions currentTime ;;
         aerodynamicAcceleration_.updateMembers currentTime ;;
         downperturbedAcceleration <- aerodynamicAcceleration_.getAcceleration ;;
         Ret (set_column self i
                (Vector3d_div
                   (Vector3d_sub upperturbedAcceleration downperturbedAcceleration)
                   (2.0 * six_get (bodyStatePerturbations_ self) i)%float)))
      self ;;
  flightConditions_.resetCurrentTime TUDAT_NAN ;;
  aerodynamicAcceleration_.resetTime TUDAT_NAN ;;
  vehicleStateSetFunction_ nominalState ;;
  flightConditions_.updateConditions currentTime ;;
  aerodynamicAcceleration_.updateMembers currentTime ;;
  Ret self.

(** Is the call the read that ends an evaluation? *)
Definition is_getAcceleration (c : call) : bool :=
  match c with
  | call_getAcceleration => true
  | _ => false
  end.

(** ** What one evaluation is, and what the collaborators promise *)

Section Evaluation.

Context {W : Type} `{Collaborators W}.

(** *** One perturbed evaluation, as the source sequences it *)

(** The world after the caches are invalidated, the state [x] is set and
    both models are updated for time [t]. *)
Definition evaluated (t : float) (x : Vector6d) (w : W) : W :=
  acc_updateMembers t
    (fc_updateConditions t
       (state_set x
          (acc_resetTime TUDAT_NAN (fc_resetCurrentTime TUDAT_NAN w)))).

(** The acceleration read after that. *)
Definition accelerationAt (t : float) (x : Vector6d) (w : W) : Vector3d :=
  acc_getAcceleration (evaluated t x w).

(** The calls of one evaluation. *)
Definition evaluation_calls (t : float) (x : Vector6d) : list call :=
  [ call_resetCurrentTime TUDAT_NAN; call_resetTime TUDAT_NAN;
    call_vehicleStateSetFunction x;
    call_updateConditions t; call_updateMembers t;
    call_getAcceleration ].

(** The calls that put the nominal state back. *)
Definition restoration_calls (t : float) (x : Vector6d) : list call :=
  [ call_resetCurrentTime TUDAT_NAN; call_resetTime TUDAT_NAN;
    call_vehicleStateSetFunction x;
    call_updateConditions t; call_updateMembers t ].

(** [s] with [h( i )] added to, or subtracted from, component [i]. *)
Definition perturbed (op : float -> float -> float) (s h : Vector6d) (i : nat)
  : Vector6d :=
  six_set s i (op (six_get s i) (six_get h i)).

(** The central difference of [f] along component [i]. *)
Definition central_difference (f : Vector6d -> Vector3d) (s h : Vector6d)
    (i : nat) : Vector3d :=
  Vector3d_div
    (Vector3d_sub (f (perturbed PrimFloat.add s h i))
                  (f (perturbed PrimFloat.sub s h i)))
    (2.0 * six_get h i)%float.

(** Iteration [i] of the loop of [update], started in world [w] with nominal
    state [s] and step sizes [h]: the column it writes, the world it leaves
    and the calls it makes. *)
Definition difference_column (t : float) (s h : Vector6d) (i : nat) (w : W)
  : Vector3d :=
  Vector3d_div
    (Vector3d_sub
       (accelerationAt t (perturbed PrimFloat.add s h i) w)
       (accelerationAt t (perturbed PrimFloat.sub s h i)
          (evaluated t (perturbed PrimFloat.add s h i) w)))
    (2.0 * six_get h i)%float.

Definition after_iteration (t : float) (s h : Vector6d) (i : nat) (w : W) : W :=
  evaluated t (perturbed PrimFloat.sub s h i)
    (evaluated t (perturbed PrimFloat.add s h i) w).

Definition iteration_calls (t : float) (s h : Vector6d) (i : nat) : list call :=
  (evaluation_calls t (perturbed PrimFloat.add s h i) ++
   evaluation_calls t (perturbed PrimFloat.sub s h i))%list.

(** The world after [count] iterations that start at index [start], when
    iteration [i] turns world [w] into [next i w]. *)
Fixpoint loop_world (next : nat -> W -> W) (count start : nat) (w : W) : W :=
  match count with
  | O => w
  | S count' => loop_world next count' (S start) (next start w)
  end.

(** *** What the collaborators promise *)

(** The state accessors hold one state: what is set is what is read, and
    neither model writes it. *)
Class StateAccessorContract : Prop :=
  { state_get_set : forall x w, state_get (state_set x w) = x;
    state_get_resetCurrentTime :
      forall t w, state_get (fc_resetCurrentTime t w) = state_get w;
    state_get_updateConditions :
      forall t w, state_get (fc_updateConditions t w) = state_get w;
    state_get_resetTime :
      forall t w, state_get (acc_resetTime t w) = state_get w;
    state_get_updateMembers :
      forall t w, state_get (acc_updateMembers t w) = state_get w }.

(** Resetting to the not-a-time value forces both models to recompute: the
    acceleration read after an evaluation depends on the time and the state
    set, not on what the models held before. *)
Class RecomputationContract : Prop :=
  { acceleration_recomputed :
      forall t x w1 w2, accelerationAt t x w1 = accelerationAt t x w2 }.

End Evaluation.

(** ** A concrete set of collaborators *)

(** Modelled from the spec: the flight conditions and the acceleration model
    are external collaborators whose classes are not part of these sources.
    This world follows their contract in the spec.  Each model stamps its
    cache with the time of its last update; [updateConditions] and
    [updateMembers] recompute unless the time asked for compares equal to
    the stamp, and the reset hooks overwrite the stamp.  The acceleration is
    the one of the spec's end-to-end scenario: [k * v^2] along a fixed
    direction. *)
Record TestWorld := mkTestWorld
  { vehicleState : Vector6d;
    conditionsTime : float;
    currentAirspeed : float;
    currentDensity : float;
    accelerationTime : float;
    currentAcceleration : Vector3d }.

Definition TestWorld_set (x : Vector6d) (w : TestWorld) : TestWorld :=
  mkTestWorld x (conditionsTime w) (currentAirspeed w) (currentDensity w)
    (accelerationTime w) (currentAcceleration w).

Definition TestWorld_resetCurrentTime (t : float) (w : TestWorld) : TestWorld :=
  mkTestWorld (vehicleState w) t (currentAirspeed w) (currentDensity w)
    (accelerationTime w) (currentAcceleration w).

Definition TestWorld_updateConditions (t : float) (w : TestWorld) : TestWorld :=
  if (t =? conditionsTime w)%float then w
  else
    let v := vehicleState w in
    mkTestWorld v t
      (sqrt (at3 v * at3 v + at4 v * at4 v + at5 v * at5 v))%float
      0x1p-30%float
      (accelerationTime w) (currentAcceleration w).

Definition TestWorld_resetTime (t : float) (w : TestWorld) : TestWorld :=
  mkTestWorld (vehicleState w) (conditionsTime w) (currentAirspeed w)
    (currentDensity w) t (currentAcceleration w).

Definition TestWorld_referenceArea : float := 4.0%float.

Definition TestWorld_updateMembers (t : float) (w : TestWorld) : TestWorld :=
  if (accelerationTime w =? t)%float then w
  else
    mkTestWorld (vehicleState w) (conditionsTime w) (currentAirspeed w)
      (currentDensity w) t
      (mkVector3d
         (- (0.5 * currentDensity w * currentAirspeed w * currentAirspeed w *
             TestWorld_referenceArea))%float
         0%float 0%float).

#[export] Instance TestWorld_Collaborators : Collaborators TestWorld :=
  {| state_get := vehicleState;
     state_set := TestWorld_set;
     fc_resetCurrentTime := TestWorld_resetCurrentTime;
     fc_updateConditions := TestWorld_updateConditions;
     acc_resetTime := TestWorld_resetTime;
     acc_updateMembers := TestWorld_updateMembers;
     acc_getAcceleration := currentAcceleration;
     fc_getRotationQuaternionBetweenFrames :=
       fun _ _ _ => mkQuaterniond 1 0 0 0;
     fc_getCurrentAirspeed := currentAirspeed;
     fc_getCurrentDensity := currentDensity;
     fc_getReferenceArea := fun _ => TestWorld_referenceArea |}.

(** A vehicle at 6800 km from the centre, moving at 7.5 km/s, with both
    caches stale. *)
Definition test_world : TestWorld :=
  mkTestWorld (mkSix 6.8e6 0 0 0 7.5e3 0)%float nan 0%float 0%float nan
    (mkVector3d 0 0 0).

(** A partial for the pair (Vehicle, Earth) whose cache holds zeros. *)
Definition test_partial : AerodynamicAccelerationPartial :=
  mkAerodynamicAccelerationPartial "Vehicle" "Earth"
    (mkSix 8 8 8 0.0078125 0.0078125 0.0078125)%float
    (mkSix (mkVector3d 0 0 0) (mkVector3d 0 0 0) (mkVector3d 0 0 0)
           (mkVector3d 0 0 0) (mkVector3d 0 0 0) (mkVector3d 0 0 0)).

(** A partial whose cache holds finite entries of both signs, and zeros. *)
Definition sample_partial : AerodynamicAccelerationPartial :=
  mkAerodynamicAccelerationPartial "Vehicle" "Earth"
    (bodyStatePerturbations_ test_partial)
    (mkSix (mkVector3d 1 (-2) 3) (mkVector3d 0 0.5 (-0)) (mkVector3d 7 8 (-9))
           (mkVector3d (-1) 0 0.25) (mkVector3d 4 (-5) 6) (mkVector3d 0 0 1))%float.

(** A 6x6 matrix of ones. *)
Definition ones6x6 : MatrixXd := mkMatrixXd 6 6 (fun _ _ => 1%float).

(** A partial whose cache holds an infinity and a not-a-number. *)
Definition nonfinite_partial : AerodynamicAccelerationPartial :=
  mkAerodynamicAccelerationPartial "Vehicle" "Earth"
    (bodyStatePerturbations_ test_partial)
    (mkSix (mkVector3d infinity 0 0) (mkVector3d 0 nan 0) (mkVector3d 0 0 0)
           (mkVector3d 0 0 0) (mkVector3d neg_infinity 0 0) (mkVector3d 0 0 nan)).
(** ** Construction *)

(** Does [p] hold of one of the six entries? *)
Definition six_existsb {A} (p : A -> bool) (v : Six A) : bool :=
  p (at0 v) || p (at1 v) || p (at2 v) || p (at3 v) || p (at4 v) || p (at5 v).

(** Modelled from the spec: the error of a configuration that is fatal at
    construction. *)
Inductive ConfigurationError :=
| InvalidConfiguration.

(** Modelled from the spec: the constructor is declared (lines 32-38 of the
    header) but its body is not part of these sources.  The spec has the
    step sizes configured at construction and never mutated afterwards, and
    makes a zero or invalid step size a configuration error, fatal at
    construction: the finite differences require [h_i != 0] for all [i] and
    fail with an InvalidConfiguration error otherwise.  What makes a step
    size invalid besides being zero the spec does not say: it is the
    parameter [invalid_step].  The cache is valid only after the first
    [update]: what it holds until then is the parameter [initialPartials].
    The collaborators the constructor receives live in the world that the
    member functions run in. *)
Definition AerodynamicAccelerationPartial_constructor
    (invalid_step : float -> bool)
    (statePerturbationMagnitudes : Vector6d) (initialPartials : Matrix3x6)
    (acceleratedBody acceleratingBody : string)
  : AerodynamicAccelerationPartial + ConfigurationError :=
  if six_existsb (fun h => (h =? 0)%float || invalid_step h)
       statePerturbationMagnitudes
  then inr InvalidConfiguration
  else
    inl (mkAerodynamicAccelerationPartial acceleratedBody acceleratingBody
           statePerturbationMagnitudes initialPartials).

(** ** Reading blocks and calls *)

(** [x] when the contribution is added, [-x] when it is subtracted. *)
Definition signed (positive : bool) (x : float) : float :=
  if positive then x else (- x)%float.

(** Do the 3x3 blocks at (sr1, sc1) and at (sr2, sc2) share no entry? *)
Definition blocks_disjoint (sr1 sc1 sr2 sc2 : Z) : bool :=
  (sr1 + 3 <=? sr2) || (sr2 + 3 <=? sr1) ||
  (sc1 + 3 <=? sc2) || (sc2 + 3 <=? sc1).

(** Every entry of a 3x6 matrix is finite. *)
Definition Matrix3x6_finite (m : Matrix3x6) : bool :=
  block3x3_finite m 0 && block3x3_finite m 3.

(** Every coefficient of a vector is finite. *)
Definition Vector3d_finite (v : Vector3d) : bool :=
  isfinite (v3x v) && isfinite (v3y v) && isfinite (v3z v).

(** The states passed to [vehicleStateSetFunction_], in order. *)
Definition states_set (calls : list call) : list Vector6d :=
  flat_map
    (fun c =>
       match c with
       | call_vehicleStateSetFunction x => [x]
       | _ => []
       end)
    calls.

(** A lookup result is consistent when the lookup returns in world [w]
    without a call to a collaborator, so leaving the world as it is, reports
    zero columns exactly when the function is empty, and otherwise reports
    the number of columns of the 3-row block that the function produces. *)
Definition lookup_consistent {W} `{Collaborators W}
    (lookup : Prog (option (MatrixXd -> Prog MatrixXd) * Z)) (w : W) : Prop :=
  exists partialFunction numberOfColumns,
    run lookup w = (Returned (partialFunction, numberOfColumns), w) /\
    trace lookup w = [] /\
    (partialFunction = None <-> numberOfColumns = 0) /\
    forall f, partialFunction = Some f ->
      forall accelerationPartial w', exists block,
        run (f accelerationPartial) w' = (Returned block, w') /\
        rows block = 3 /\ cols block = numberOfColumns.

(** ** Facts on binary64 arithmetic *)

Module Double.

Lemma Prim2SF_zero : Prim2SF 0%float = S754_zero false.
Proof. reflexivity. Qed.

Lemma Prim2SF_nan : Prim2SF nan = S754_nan.
Proof. reflexivity. Qed.

Lemma Prim2SF_infinity : Prim2SF infinity = S754_infinity false.
Proof. reflexivity. Qed.

Lemma SFcompare_refl (x : spec_float) :
  x <> S754_nan -> SFcompare x x = Some Eq.
Proof.
  destruct x as [s | s | | s m e]; simpl; intros Hx;
    try congruence; try (destruct s; reflexivity).
  rewrite Z.compare_refl, Pos.compare_cont_refl.
  destruct s; reflexivity.
Qed.

Lemma isnan_spec (x : float) :
  isnan x = true <-> Prim2SF x = S754_nan.
Proof.
  unfold isnan, is_nan. rewrite FloatAxioms.eqb_spec. unfold SFeqb.
  destruct (Prim2SF x) as [s | s | | s m e] eqn:E.
  - simpl. split; discriminate.
  - destruct s; simpl; split; discriminate.
  - simpl. split; reflexivity.
  - rewrite SFcompare_refl by discriminate. simpl. split; discriminate.
Qed.

Lemma isnan_false (x : float) :
  isnan x = false <-> Prim2SF x <> S754_nan.
Proof.
  pose proof (isnan_spec x) as [H1 H2].
  destruct (isnan x); split; intros H; try congruence.
  - exfalso. apply H, H1. reflexivity.
  - intros E. discriminate (H2 E).
Qed.

Lemma isfinite_spec (x : float) :
  isfinite x = true <->
  (exists s, Prim2SF x = S754_zero s) \/
  (exists s m e, Prim2SF x = S754_finite s m e).
Proof.
  unfold isfinite, is_finite, is_infinity.
  change (is_nan x) with (isnan x).
  rewrite FloatAxioms.eqb_spec, FloatAxioms.abs_spec, Prim2SF_infinity.
  destruct (isnan x) eqn:Hn.
  - apply isnan_spec in Hn. rewrite Hn. simpl.
    split; [discriminate | intros [[s H] | [s [m [e H]]]]; discriminate].
  - apply isnan_false in Hn.
    destruct (Prim2SF x) as [s | s | | s m e]; simpl.
    + split; [intros _; left; eexists; reflexivity | reflexivity].
    + split; [discriminate | intros [[s' H] | [s' [m [e H]]]]; discriminate].
    + congruence.
    + split; [intros _; right; do 3 eexists; reflexivity | reflexivity].
Qed.

(** The not-a-number compares unequal to every double, itself included. *)
Lemma eqb_nan_r (x : float) : (x =? nan)%float = false.
Proof.
  rewrite FloatAxioms.eqb_spec, Prim2SF_nan. unfold SFeqb.
  destruct (Prim2SF x); reflexivity.
Qed.

Lemma eqb_nan_l (x : float) : (nan =? x)%float = false.
Proof. rewrite FloatAxioms.eqb_spec, Prim2SF_nan. reflexivity. Qed.

Lemma shl_align_same (m : positive) (e : Z) : shl_align m e e = (m, e).
Proof. unfold shl_align. rewrite Z.sub_diag. reflexivity. Qed.

(** [0 + c - c] is [+0] for every finite [c]. *)
Lemma zero_add_sub (c : float) :
  isfinite c = true -> (0 + c - c)%float = 0%float.
Proof.
  intros Hc. apply Prim2SF_inj.
  rewrite FloatAxioms.sub_spec, FloatAxioms.add_spec, Prim2SF_zero.
  apply isfinite_spec in Hc.
  destruct Hc as [[s ->] | [s [m [e ->]]]].
  - destruct s; reflexivity.
  - unfold SF64add, SF64sub. simpl.
    rewrite Z.min_id, shl_align_same. simpl.
    rewrite Z.sub_diag. reflexivity.
Qed.

(** [0 - c] compares equal to [-(0 + c)] unless [c] is not-a-number. *)
Lemma zero_sub_eqb_opp_zero_add (c : float) :
  isnan c = false -> (0 - c =? - (0 + c))%float = true.
Proof.
  intros Hc. apply isnan_false in Hc.
  rewrite FloatAxioms.eqb_spec, FloatAxioms.opp_spec, FloatAxioms.sub_spec, FloatAxioms.add_spec, Prim2SF_zero.
  unfold SFeqb.
  destruct (Prim2SF c) as [s | s | | s m e]; try congruence.
  - destruct s; reflexivity.
  - destruct s; reflexivity.
  - unfold SF64add, SF64sub. cbn [SFadd SFsub SFopp].
    rewrite SFcompare_refl by discriminate. reflexivity.
Qed.

(** [0 + c] compares equal to [-(0 - c)] unless [c] is not-a-number. *)
Lemma zero_add_eqb_opp_zero_sub (c : float) :
  isnan c = false -> (0 + c =? - (0 - c))%float = true.
Proof.
  intros Hc. apply isnan_false in Hc.
  rewrite FloatAxioms.eqb_spec, FloatAxioms.opp_spec, FloatAxioms.sub_spec,
    FloatAxioms.add_spec, Prim2SF_zero.
  unfold SFeqb.
  destruct (Prim2SF c) as [s | s | | s m e]; try congruence.
  - destruct s; reflexivity.
  - destruct s; reflexivity.
  - unfold SF64add, SF64sub. cbn [SFadd SFsub SFopp].
    rewrite Bool.negb_involutive.
    rewrite SFcompare_refl by discriminate. reflexivity.
Qed.

(** Subtracting is adding the opposite, bit for bit. *)
Lemma sub_add_opp (x c : float) : (x - c)%float = (x + - c)%float.
Proof.
  apply Prim2SF_inj. rewrite FloatAxioms.sub_spec, FloatAxioms.add_spec, FloatAxioms.opp_spec.
  unfold SF64add, SF64sub.
  destruct (Prim2SF x) as [sx | sx | | sx mx ex];
    destruct (Prim2SF c) as [sc | sc | | sc mc ec]; simpl;
    try reflexivity; destruct sx, sc; reflexivity.
Qed.

(** A quotient by [2.0 * h] is never finite when [h] compares equal to 0. *)
Lemma div_by_twice_zero (x h : float) :
  (h =? 0)%float = true -> isfinite (x / (2 * h))%float = false.
Proof.
  intros Hh. rewrite FloatAxioms.eqb_spec, Prim2SF_zero in Hh.
  destruct (isfinite (x / (2 * h))%float) eqn:Hf; [exfalso | reflexivity].
  apply isfinite_spec in Hf. rewrite FloatAxioms.div_spec, FloatAxioms.mul_spec in Hf.
  change (Prim2SF 2%float) with (S754_finite false 4503599627370496 (-51)) in Hf.
  destruct (Prim2SF h) as [sh | sh | | sh mh eh]; simpl in Hh.
  - unfold SF64mul, SF64div in Hf. simpl in Hf.
    destruct (Prim2SF x) as [sx | sx | | sx mx ex]; simpl in Hf;
      destruct Hf as [[s H] | [s [m [e H]]]]; discriminate.
  - destruct sh; discriminate.
  - discriminate.
  - destruct sh; discriminate.
Qed.

End Double.

(** ** Reading and writing six entries *)

Lemma six_get_set_eq {A} (v : Six A) (i : nat) (a : A) :
  (i < 6)%nat -> six_get (six_set v i a) i = a.
Proof.
  intros Hi. do 6 (destruct i as [|i]; [reflexivity|]). lia.
Qed.

Lemma six_get_set_ne {A} (v : Six A) (i j : nat) (a : A) :
  (i < 6)%nat -> i <> j -> six_get (six_set v j a) i = six_get v i.
Proof.
  intros Hi Hij.
  do 6 (destruct i as [|i];
        [do 6 (destruct j as [|j]; [reflexivity || congruence|]); reflexivity|]).
  lia.
Qed.

Lemma six_ext {A} (u v : Six A) :
  (forall i, (i < 6)%nat -> six_get u i = six_get v i) -> u = v.
Proof.
  intros H. destruct u, v.
  pose proof (H 0%nat ltac:(lia)). pose proof (H 1%nat ltac:(lia)).
  pose proof (H 2%nat ltac:(lia)). pose proof (H 3%nat ltac:(lia)).
  pose proof (H 4%nat ltac:(lia)). pose proof (H 5%nat ltac:(lia)).
  simpl in *. congruence.
Qed.

(** ** Running programs *)

Section Running.

Context {W : Type} `{Collaborators W}.

Lemma run_bind {A B} (p : Prog A) (f : A -> Prog B) (w : W) :
  run (bind p f) w =
  match run p w with
  | (Returned a, w') => run (f a) w'
  | (Threw e, w') => (Threw e, w')
  end.
Proof.
  revert w. induction p as [a | e | c k IH]; intros w; simpl; try reflexivity.
  destruct (handle c w) as [r w']. apply IH.
Qed.

Lemma trace_bind {A B} (p : Prog A) (f : A -> Prog B) (w : W) :
  trace (bind p f) w =
  (trace p w ++
   match run p w with
   | (Returned a, w') => trace (f a) w'
   | (Threw e, _) => []
   end)%list.
Proof.
  revert w. induction p as [a | e | c k IH]; intros w; simpl; try reflexivity.
  destruct (handle c w) as [r w']. simpl. f_equal. apply IH.
Qed.

End Running.

(** ** The loop of [update] *)

Section Update.

Context {W : Type} `{Collaborators W}.

Variable h : Vector6d.
Variable body : nat -> AerodynamicAccelerationPartial -> Prog AerodynamicAccelerationPartial.
Variable column : nat -> W -> Vector3d.
Variable next : nat -> W -> W.
Variable calls : nat -> list call.

Hypothesis body_run :
  forall i self w, bodyStatePerturbations_ self = h ->
    run (body i self) w = (Returned (set_column self i (column i w)), next i w).

Hypothesis body_trace :
  forall i self w, bodyStatePerturbations_ self = h ->
    trace (body i self) w = calls i.

(** The loop returns; iteration [i] writes column [i] from the world the
    iterations before it left, and the other members are left alone. *)
Lemma for_loop_run (count start : nat) (self : AerodynamicAccelerationPartial) (w : W) :
  bodyStatePerturbations_ self = h ->
  exists self',
    run (for_loop count start body self) w =
      (Returned self', loop_world next count start w) /\
    acceleratedBody_ self' = acceleratedBody_ self /\
    acceleratingBody_ self' = acceleratingBody_ self /\
    bodyStatePerturbations_ self' = h /\
    forall i, (i < 6)%nat ->
      ((start <= i < start + count)%nat ->
         six_get (currentAccelerationStatePartials_ self') i =
         column i (loop_world next (i - start) start w)) /\
      (~ (start <= i < start + count)%nat ->
         six_get (currentAccelerationStatePartials_ self') i =
         six_get (currentAccelerationStatePartials_ self) i).
Proof.
  revert start self w.
  induction count as [|count IH]; intros start self w Hh.
  - exists self. simpl. repeat split; auto; intros; lia.
  - cbn [for_loop loop_world]. rewrite run_bind, body_run by exact Hh.
    destruct (IH (S start) (set_column self start (column start w)) (next start w) Hh)
      as (self' & Hrun & Ha & Hb & Hp & Hcols).
    exists self'.
    split; [exact Hrun|]. split; [exact Ha|]. split; [exact Hb|].
    split; [exact Hp|]. intros i Hi. destruct (Hcols i Hi) as [Hinside Houtside].
    split.
    + intros Hin. destruct (Nat.eq_dec i start) as [-> | Hne].
      * rewrite Houtside by lia. simpl. rewrite six_get_set_eq by exact Hi.
        rewrite Nat.sub_diag. reflexivity.
      * rewrite Hinside by lia.
        replace (i - start)%nat with (S (i - S start)) by lia. reflexivity.
    + intros Hout. rewrite Houtside by lia. simpl.
      apply six_get_set_ne; [exact Hi | lia].
Qed.

(** The calls of the loop are those of its iterations, in order. *)
Lemma for_loop_trace (count start : nat) (self : AerodynamicAccelerationPartial) (w : W) :
  bodyStatePerturbations_ self = h ->
  trace (for_loop count start body self) w = flat_map calls (seq start count).
Proof.
  revert start self w.
  induction count as [|count IH]; intros start self w Hh; [reflexivity|].
  cbn [for_loop seq flat_map]. rewrite trace_bind, body_run, body_trace by exact Hh.
  f_equal. apply IH. exact Hh.
Qed.

End Update.

(** ** What [update] does *)

Section UpdateProperties.

Context {W : Type} `{Collaborators W}.

(** [update] returns.  Column [i] is the difference quotient of the two
    accelerations read in iteration [i]; the world left is the one of a last
    evaluation at the nominal state. *)
Lemma update_run (self : AerodynamicAccelerationPartial) (t : float) (w : W) :
  let s := state_get w in
  let h := bodyStatePerturbations_ self in
  exists self',
    run (update self t) w =
      (Returned self', evaluated t s (loop_world (after_iteration t s h) 6 0 w)) /\
    acceleratedBody_ self' = acceleratedBody_ self /\
    acceleratingBody_ self' = acceleratingBody_ self /\
    bodyStatePerturbations_ self' = h /\
    forall i, (i < 6)%nat ->
      six_get (currentAccelerationStatePartials_ self') i =
      difference_column t s h i (loop_world (after_iteration t s h) i 0 w).
Proof.
  cbv zeta. unfold update. rewrite run_bind.
  change (run vehicleStateGetFunction_ w) with (Returned (state_get w), w).
  cbv iota beta. rewrite run_bind.
  match goal with
  | |- context [run (for_loop 6 0 ?b self) w] =>
      destruct (for_loop_run (bodyStatePerturbations_ self) b
                  (difference_column t (state_get w) (bodyStatePerturbations_ self))
                  (after_iteration t (state_get w) (bodyStatePerturbations_ self))
                  ltac:(intros i self0 w0 Hh; rewrite <- Hh; reflexivity)
                  6 0 self w eq_refl)
        as (self' & Hrun & Ha & Hb & Hp & Hcols)
  end.
  rewrite Hrun. exists self'.
  split; [reflexivity|]. split; [exact Ha|]. split; [exact Hb|].
  split; [exact Hp|]. intros i Hi.
  destruct (Hcols i Hi) as [Hinside _]. rewrite Hinside by lia.
  rewrite Nat.sub_0_r. reflexivity.
Qed.

Lemma update_trace (self : AerodynamicAccelerationPartial) (t : float) (w : W) :
  trace (update self t) w =
  (call_vehicleStateGetFunction ::
   flat_map (iteration_calls t (state_get w) (bodyStatePerturbations_ self))
     (seq 0 6) ++
   restoration_calls t (state_get w))%list.
Proof.
  unfold update. rewrite trace_bind.
  change (run vehicleStateGetFunction_ w) with (Returned (state_get w), w).
  change (trace vehicleStateGetFunction_ w) with [call_vehicleStateGetFunction].
  cbv iota beta. rewrite trace_bind.
  match goal with
  | |- context [run (for_loop 6 0 ?b self) w] =>
      destruct (for_loop_run (bodyStatePerturbations_ self) b
                  (difference_column t (state_get w) (bodyStatePerturbations_ self))
                  (after_iteration t (state_get w) (bodyStatePerturbations_ self))
                  ltac:(intros i self0 w0 Hh; rewrite <- Hh; reflexivity)
                  6 0 self w eq_refl)
        as (self' & Hrun & _);
      rewrite (for_loop_trace (bodyStatePerturbations_ self) b
                  (difference_column t (state_get w) (bodyStatePerturbations_ self))
                  (after_iteration t (state_get w) (bodyStatePerturbations_ self))
                  (iteration_calls t (state_get w) (bodyStatePerturbations_ self))
                  ltac:(intros i self0 w0 Hh; rewrite <- Hh; reflexivity)
                  ltac:(intros i self0 w0 Hh; rewrite <- Hh; reflexivity)
                  6 0 self w eq_refl)
  end.
  rewrite Hrun. reflexivity.
Qed.

End UpdateProperties.

(** ** The signed accessors *)

Lemma in_block3x3_offsets (sr sc r c : Z) :
  in_block3x3 sr sc r c = true ->
  (Z.to_nat (r - sr) < 3)%nat /\ (Z.to_nat (c - sc) < 3)%nat.
Proof. unfold in_block3x3. lia. Qed.

Lemma block3x3_assign_fits (op : float -> float -> float) (m : MatrixXd)
    (sr sc : Z) (src : Z -> Z -> float) :
  block3x3_fits m sr sc = true ->
  block3x3_assign op m sr sc src =
  Some (mkMatrixXd (rows m) (cols m)
          (fun r c =>
             if in_block3x3 sr sc r c
             then op (coeff m r c) (src (r - sr) (c - sc))
             else coeff m r c)).
Proof. intros Hfits. unfold block3x3_assign. rewrite Hfits. reflexivity. Qed.

Lemma block3x3_assign_frame (op : float -> float -> float) (m m' : MatrixXd)
    (sr sc : Z) (src : Z -> Z -> float) :
  block3x3_assign op m sr sc src = Some m' ->
  rows m' = rows m /\ cols m' = cols m /\
  forall r c, in_block3x3 sr sc r c = false -> coeff m' r c = coeff m r c.
Proof.
  unfold block3x3_assign. destruct (block3x3_fits m sr sc); [|discriminate].
  intros [= <-]. simpl. repeat split. intros r c Hout. rewrite Hout. reflexivity.
Qed.

(** Each accessor is one compound assignment on the block, from the position
    columns (0..2) or the velocity columns (3..5) of the cache. *)
Lemma accessor_cases
    (accessor : AerodynamicAccelerationPartial -> MatrixXd -> bool -> Z -> Z ->
                option (AerodynamicAccelerationPartial * MatrixXd)) :
  In accessor [ wrtPositionOfAcceleratedBody; wrtVelocityOfAcceleratedBody;
                wrtPositionOfAcceleratingBody; wrtVelocityOfAcceleratingBody ] ->
  forall self m add sr sc,
  exists op column,
    accessor self m add sr sc =
    option_map (pair self)
      (block3x3_assign op m sr sc
         (block3x3_of (currentAccelerationStatePartials_ self) column)).
Proof.
  intros [<- | [<- | [<- | [<- | []]]]] self m add sr sc;
    destruct add; eexists; eexists; reflexivity.
Qed.

(** C10: every one of the four accessors, when its call is within Eigen's
    precondition and so has a result, leaves the size of the output matrix
    and every entry outside the 3x3 block at (startRow, startColumn) as they
    were, and leaves the object, its cached state partial included,
    unchanged. *)
Theorem accessors_write_only_their_block
    (accessor : AerodynamicAccelerationPartial -> MatrixXd -> bool -> Z -> Z ->
                option (AerodynamicAccelerationPartial * MatrixXd))
    (self self' : AerodynamicAccelerationPartial)
    (partialMatrix partialMatrix' : MatrixXd)
    (addContribution : bool) (startRow startColumn : Z) :
  In accessor [ wrtPositionOfAcceleratedBody; wrtVelocityOfAcceleratedBody;
                wrtPositionOfAcceleratingBody; wrtVelocityOfAcceleratingBody ] ->
  accessor self partialMatrix addContribution startRow startColumn =
    Some (self', partialMatrix') ->
  self' = self /\
  currentAccelerationStatePartials_ self' = currentAccelerationStatePartials_ self /\
  rows partialMatrix' = rows partialMatrix /\
  cols partialMatrix' = cols partialMatrix /\
  forall r c, in_block3x3 startRow startColumn r c = false ->
    coeff partialMatrix' r c = coeff partialMatrix r c.
Proof.
  intros Hin Hcall.
  destruct (accessor_cases accessor Hin self partialMatrix addContribution
              startRow startColumn) as (op & column & Heq).
  rewrite Heq in Hcall.
  destruct (block3x3_assign op partialMatrix startRow startColumn _)
    as [m'|] eqn:Hassign; [|discriminate].
  simpl in Hcall. injection Hcall as <- <-.
  split; [reflexivity|]. split; [reflexivity|].
  exact (block3x3_assign_frame _ _ _ _ _ _ Hassign).
Qed.

(** Within Eigen's precondition every accessor has a result. *)
Lemma accessors_return
    (accessor : AerodynamicAccelerationPartial -> MatrixXd -> bool -> Z -> Z ->
                option (AerodynamicAccelerationPartial * MatrixXd))
    (self : AerodynamicAccelerationPartial) (m : MatrixXd)
    (add : bool) (sr sc : Z) :
  In accessor [ wrtPositionOfAcceleratedBody; wrtVelocityOfAcceleratedBody;
                wrtPositionOfAcceleratingBody; wrtVelocityOfAcceleratingBody ] ->
  block3x3_fits m sr sc = true ->
  exists m', accessor self m add sr sc = Some (self, m').
Proof.
  intros Hin Hfits.
  destruct (accessor_cases accessor Hin self m add sr sc) as (op & column & ->).
  rewrite block3x3_assign_fits by exact Hfits. eexists; reflexivity.
Qed.

Lemma block3x3_all_spec (p : float -> bool) (m : Matrix3x6) (column : nat) :
  block3x3_all p m column = true ->
  forall r c, (r < 3)%nat -> (c < 3)%nat -> p (coeff3x6 m r (column + c)) = true.
Proof.
  unfold block3x3_all. cbn [forallb]. rewrite !Bool.andb_true_r.
  intros Hall r c Hr Hc.
  repeat (apply Bool.andb_true_iff in Hall; destruct Hall as [? Hall]).
  repeat match goal with
         | Hrow : (_ && _)%bool = true |- _ =>
             apply Bool.andb_true_iff in Hrow; destruct Hrow
         end.
  destruct r as [|[|[|r]]]; [| | |lia];
    (destruct c as [|[|[|c]]]; [| | |lia]); assumption.
Qed.

Lemma assigned_blocks_are_negations (m : Matrix3x6) (column : nat)
    (nr nc sr sc : Z) (a b : MatrixXd) :
  block3x3_free_of_nan m column = true ->
  block3x3_assign PrimFloat.add (MatrixXd_Zero nr nc) sr sc (block3x3_of m column)
    = Some a ->
  block3x3_assign PrimFloat.sub (MatrixXd_Zero nr nc) sr sc (block3x3_of m column)
    = Some b ->
  negations a b.
Proof.
  intros Hnan.
  assert (Hentry : forall r c, (r < 3)%nat -> (c < 3)%nat ->
            isnan (coeff3x6 m r (column + c)) = false).
  { intros r c Hr Hc. apply Bool.negb_true_iff.
    exact (block3x3_all_spec _ m column Hnan r c Hr Hc). }
  unfold block3x3_assign.
  destruct (block3x3_fits (MatrixXd_Zero nr nc) sr sc); [|discriminate].
  intros [= <-] [= <-]. unfold negations. simpl.
  split; [reflexivity|]. split; [reflexivity|]. intros r c.
  destruct (in_block3x3 sr sc r c) eqn:Hin; [|split; reflexivity].
  destruct (in_block3x3_offsets _ _ _ _ Hin) as [Hr Hc].
  unfold block3x3_of. split.
  - apply Double.zero_sub_eqb_opp_zero_add, Hentry; assumption.
  - apply Double.zero_add_eqb_opp_zero_sub, Hentry; assumption.
Qed.

(** C3, as amended: on zero-initialized blocks within Eigen's precondition,
    the accessors of the accelerated body (with addContribution = true)
    yield [0 + c] and those of the accelerating body [0 + (-c)] for each
    entry [c] of the cached block, bit for bit; and the two blocks compare
    equal to the negations of each other whenever no entry of the cached
    block is a not-a-number.  This holds for the position accessors
    (columns 0..2 of the cache) and for the velocity accessors
    (columns 3..5). *)
Theorem accelerated_and_accelerating_blocks_are_negations
    (self : AerodynamicAccelerationPartial) (nr nc startRow startColumn : Z) :
  block3x3_fits (MatrixXd_Zero nr nc) startRow startColumn = true ->
  exists position position' velocity velocity',
    wrtPositionOfAcceleratedBody self (MatrixXd_Zero nr nc) true startRow startColumn
      = Some (self, position) /\
    wrtPositionOfAcceleratingBody self (MatrixXd_Zero nr nc) true startRow startColumn
      = Some (self, position') /\
    wrtVelocityOfAcceleratedBody self (MatrixXd_Zero nr nc) true startRow startColumn
      = Some (self, velocity) /\
    wrtVelocityOfAcceleratingBody self (MatrixXd_Zero nr nc) true startRow startColumn
      = Some (self, velocity') /\
    (forall r c, in_block3x3 startRow startColumn r c = true ->
       let i := Z.to_nat (r - startRow) in
       let j := Z.to_nat (c - startColumn) in
       let cache := currentAccelerationStatePartials_ self in
       coeff position r c = (0 + coeff3x6 cache i j)%float /\
       coeff position' r c = (0 + - coeff3x6 cache i j)%float /\
       coeff velocity r c = (0 + coeff3x6 cache i (3 + j))%float /\
       coeff velocity' r c = (0 + - coeff3x6 cache i (3 + j))%float) /\
    (block3x3_free_of_nan (currentAccelerationStatePartials_ self) 0 = true ->
       negations position position') /\
    (block3x3_free_of_nan (currentAccelerationStatePartials_ self) 3 = true ->
       negations velocity velocity').
Proof.
  intros Hfits.
  unfold wrtPositionOfAcceleratedBody, wrtPositionOfAcceleratingBody,
    wrtVelocityOfAcceleratedBody, wrtVelocityOfAcceleratingBody.
  destruct (block3x3_assign PrimFloat.add (MatrixXd_Zero nr nc) startRow startColumn
              (block3x3_of (currentAccelerationStatePartials_ self) 0))
    as [p|] eqn:Hp; [|rewrite block3x3_assign_fits in Hp by exact Hfits; discriminate].
  destruct (block3x3_assign PrimFloat.sub (MatrixXd_Zero nr nc) startRow startColumn
              (block3x3_of (currentAccelerationStatePartials_ self) 0))
    as [p'|] eqn:Hp'; [|rewrite block3x3_assign_fits in Hp' by exact Hfits; discriminate].
  destruct (block3x3_assign PrimFloat.add (MatrixXd_Zero nr nc) startRow startColumn
              (block3x3_of (currentAccelerationStatePartials_ self) 3))
    as [v|] eqn:Hv; [|rewrite block3x3_assign_fits in Hv by exact Hfits; discriminate].
  destruct (block3x3_assign PrimFloat.sub (MatrixXd_Zero nr nc) startRow startColumn
              (block3x3_of (currentAccelerationStatePartials_ self) 3))
    as [v'|] eqn:Hv'; [|rewrite block3x3_assign_fits in Hv' by exact Hfits; discriminate].
  exists p, p', v, v'. simpl.
  do 4 (split; [reflexivity|]).
  split; [|split].
  - intros r c Hin.
    rewrite block3x3_assign_fits in Hp, Hp', Hv, Hv' by exact Hfits.
    injection Hp as <-. injection Hp' as <-. injection Hv as <-. injection Hv' as <-.
    simpl. rewrite Hin. unfold block3x3_of. simpl.
    rewrite <- !Double.sub_add_opp. repeat split.
  - intros Hnan. exact (assigned_blocks_are_negations _ _ _ _ _ _ _ _ Hnan Hp Hp').
  - intros Hnan. exact (assigned_blocks_are_negations _ _ _ _ _ _ _ _ Hnan Hv Hv').
Qed.

(** C3, as stated, fails: with a not-a-number in the cached position block
    both accessors leave a not-a-number at that entry, and a not-a-number
    does not compare equal to its negation. *)
Lemma accelerated_and_accelerating_blocks_nan_counterexample :
  exists position position',
    wrtPositionOfAcceleratedBody nonfinite_partial (MatrixXd_Zero 3 3) true 0 0
      = Some (nonfinite_partial, position) /\
    wrtPositionOfAcceleratingBody nonfinite_partial (MatrixXd_Zero 3 3) true 0 0
      = Some (nonfinite_partial, position') /\
    (coeff position' 1 1 =? - coeff position 1 1)%float = false /\
    ~ negations position position'.
Proof.
  eexists. eexists. split; [reflexivity|]. split; [reflexivity|].
  split; [reflexivity|].
  intros (_ & _ & Hneg). destruct (Hneg 1 1) as [Hb _].
  vm_compute in Hb. discriminate.
Qed.

(** C9, as amended: on a zero-initialized block within Eigen's precondition,
    [wrtPositionOfAcceleratedBody] with addContribution = true followed by
    the same call with addContribution = false leaves every entry zero,
    provided every entry of the cached position block is finite. *)
Theorem add_then_subtract_restores_zeros
    (self : AerodynamicAccelerationPartial) (nr nc startRow startColumn : Z) :
  block3x3_fits (MatrixXd_Zero nr nc) startRow startColumn = true ->
  block3x3_finite (currentAccelerationStatePartials_ self) 0 = true ->
  exists added restored,
    wrtPositionOfAcceleratedBody self (MatrixXd_Zero nr nc) true startRow startColumn
      = Some (self, added) /\
    wrtPositionOfAcceleratedBody self added false startRow startColumn
      = Some (self, restored) /\
    rows restored = nr /\ cols restored = nc /\
    forall r c, coeff restored r c = 0%float.
Proof.
  intros Hfits Hfinite. unfold wrtPositionOfAcceleratedBody.
  rewrite block3x3_assign_fits by exact Hfits.
  eexists. eexists. split; [reflexivity|].
  rewrite block3x3_assign_fits by exact Hfits.
  split; [reflexivity|]. simpl. split; [reflexivity|]. split; [reflexivity|].
  intros r c. destruct (in_block3x3 startRow startColumn r c) eqn:Hin; [|reflexivity].
  destruct (in_block3x3_offsets _ _ _ _ Hin) as [Hr Hc].
  unfold block3x3_of. apply Double.zero_add_sub.
  exact (block3x3_all_spec _ _ 0%nat Hfinite _ _ Hr Hc).
Qed.

(** C9, as stated, fails: with an infinity in the cached position block the
    entry is [0 + inf - inf], a not-a-number, after the two calls. *)
Lemma add_then_subtract_infinity_counterexample :
  exists added restored,
    wrtPositionOfAcceleratedBody nonfinite_partial (MatrixXd_Zero 3 3) true 0 0
      = Some (nonfinite_partial, added) /\
    wrtPositionOfAcceleratedBody nonfinite_partial added false 0 0
      = Some (nonfinite_partial, restored) /\
    isnan (coeff restored 0 0) = true /\
    (coeff restored 0 0 =? 0)%float = false /\
    coeff restored 0 0 <> 0%float.
Proof.
  eexists. eexists. split; [reflexivity|]. split; [reflexivity|].
  split; [reflexivity|]. split; [reflexivity|].
  intros Heq. apply (f_equal isnan) in Heq. vm_compute in Heq. discriminate.
Qed.

(** ** The dependency queries *)

Lemma IntegratedStateType_eqb_eq (a b : IntegratedStateType) :
  IntegratedStateType_eqb a b = true <-> a = b.
Proof.
  destruct a, b; simpl; split; try congruence; try discriminate.
  - intros Heq. apply Nat.eqb_eq in Heq. congruence.
  - intros [= ->]. apply Nat.eqb_refl.
Qed.

Lemma EstimatebleParametersEnum_eqb_eq (a b : EstimatebleParametersEnum) :
  EstimatebleParametersEnum_eqb a b = true <-> a = b.
Proof.
  destruct a, b; simpl; split; try congruence; try discriminate.
  - intros Heq. apply Nat.eqb_eq in Heq. congruence.
  - intros [= ->]. apply Nat.eqb_refl.
Qed.

(** C6: the query throws a [std::runtime_error] exactly when the state type
    is the body-mass state and the reference point's body is the accelerated
    or the accelerating body; in every other case it returns false.  It calls
    no collaborator either way. *)
Theorem isStateDerivativeDependent_throws_iff_body_mass
    {W : Type} `{Collaborators W}
    (self : AerodynamicAccelerationPartial)
    (stateReferencePoint : string * string)
    (integratedStateType : IntegratedStateType) (w : W) :
  let query :=
    run (isStateDerivativeDependentOnIntegratedNonTranslationalState
           self stateReferencePoint integratedStateType) w in
  let guarded :=
    integratedStateType = body_mass_state /\
    (fst stateReferencePoint = acceleratedBody_ self \/
     fst stateReferencePoint = acceleratingBody_ self) in
  ((exists e, fst query = Threw e) <-> guarded) /\
  (guarded ->
     query =
     (Threw (runtime_error
        "Warning, dependency of central gravity on body masses not yet implemented"),
      w)) /\
  (~ guarded -> query = (Returned false, w)).
Proof.
  cbv zeta. unfold isStateDerivativeDependentOnIntegratedNonTranslationalState.
  destruct (IntegratedStateType_eqb integratedStateType body_mass_state) eqn:Hty.
  - apply IntegratedStateType_eqb_eq in Hty.
    destruct (String.eqb (fst stateReferencePoint) (acceleratingBody_ self)) eqn:Hing.
    + apply String.eqb_eq in Hing. simpl.
      split; [split; [auto | intros _; eexists; reflexivity]|].
      split; [reflexivity | intros Hn; exfalso; apply Hn; auto].
    + apply String.eqb_neq in Hing.
      destruct (String.eqb (fst stateReferencePoint) (acceleratedBody_ self)) eqn:Hed.
      * apply String.eqb_eq in Hed. simpl.
        split; [split; [auto | intros _; eexists; reflexivity]|].
        split; [reflexivity | intros Hn; exfalso; apply Hn; auto].
      * apply String.eqb_neq in Hed. simpl.
        split; [split; [intros [e He]; discriminate | intros [_ [Hc | Hc]]; contradiction]|].
        split; [intros [_ [Hc | Hc]]; contradiction | reflexivity].
  - assert (Hne : integratedStateType <> body_mass_state).
    { intros Heq. apply IntegratedStateType_eqb_eq in Heq. congruence. }
    rewrite Bool.andb_false_r. simpl.
    split; [split; [intros [e He]; discriminate | intros [Hc _]; contradiction]|].
    split; [intros [Hc _]; contradiction | reflexivity].
Qed.

(** C4: for a scalar parameter the lookup returns the drag-coefficient
    partial function with one column exactly when the parameter is a
    constant drag coefficient of the accelerated body; for every other
    parameter it returns the empty function with zero columns.  It returns
    in both cases: nothing is thrown and no collaborator is called.  The
    function returned produces a 3x1 block. *)
Theorem getParameterPartialFunction_matches_drag_coefficient
    {W : Type} `{Collaborators W}
    (Quaterniond_mul : Quaterniond -> Vector3d -> Vector3d)
    (self : AerodynamicAccelerationPartial)
    (parameter : EstimatableParameter) (w : W) :
  let lookup := run (getParameterPartialFunction Quaterniond_mul self parameter) w in
  let registered :=
    fst (getParameterName parameter) = constant_drag_coefficient /\
    fst (snd (getParameterName parameter)) = acceleratedBody_ self in
  ((exists partialFunction, lookup = (Returned (Some partialFunction, 1), w))
   <-> registered) /\
  (registered ->
     lookup =
     (Returned
        (Some (computeAccelerationPartialWrtCurrentDragCoefficient
                 Quaterniond_mul self), 1), w)) /\
  (~ registered -> lookup = (Returned (None, 0), w)) /\
  (forall accelerationPartial, exists block,
     run (computeAccelerationPartialWrtCurrentDragCoefficient
            Quaterniond_mul self accelerationPartial) w = (Returned block, w) /\
     rows block = 3 /\ cols block = 1).
Proof.
  cbv zeta. unfold getParameterPartialFunction.
  destruct (EstimatebleParametersEnum_eqb (fst (getParameterName parameter))
              constant_drag_coefficient) eqn:Hkind.
  - apply EstimatebleParametersEnum_eqb_eq in Hkind.
    destruct (String.eqb (fst (snd (getParameterName parameter)))
                (acceleratedBody_ self)) eqn:Hbody.
    + apply String.eqb_eq in Hbody. simpl.
      split; [split; [auto | intros _; eexists; reflexivity]|].
      split; [reflexivity|].
      split; [intros Hn; exfalso; apply Hn; auto|].
      intros accelerationPartial. eexists. repeat split.
    + apply String.eqb_neq in Hbody. simpl.
      split; [split; [intros [f Hf]; discriminate | intros [_ Hc]; contradiction]|].
      split; [intros [_ Hc]; contradiction|].
      split; [reflexivity|].
      intros accelerationPartial. eexists. repeat split.
  - assert (Hne : fst (getParameterName parameter) <> constant_drag_coefficient).
    { intros Heq. apply EstimatebleParametersEnum_eqb_eq in Heq. congruence. }
    simpl.
    split; [split; [intros [f Hf]; discriminate | intros [Hc _]; contradiction]|].
    split; [intros [Hc _]; contradiction|].
    split; [reflexivity|].
    intros accelerationPartial. eexists. repeat split.
Qed.

(** ** The state partial that [update] caches *)

Section UpdateClaims.

Context {W : Type} `{Collaborators W}.

Lemma coeff3_Vector3d_div (v : Vector3d) (s : float) (r : nat) :
  coeff3 (Vector3d_div v s) r = (coeff3 v r / s)%float.
Proof. destruct r as [|[|r]]; reflexivity. Qed.

Lemma state_get_evaluated `{!StateAccessorContract} (t : float) (x : Vector6d) (w : W) :
  state_get (evaluated t x w) = x.
Proof.
  unfold evaluated.
  rewrite state_get_updateMembers, state_get_updateConditions.
  apply state_get_set.
Qed.

Lemma difference_column_central `{!RecomputationContract}
    (t : float) (s h : Vector6d) (i : nat) (wi w : W) :
  difference_column t s h i wi =
  central_difference (fun x => accelerationAt t x w) s h i.
Proof.
  unfold difference_column, central_difference.
  rewrite (acceleration_recomputed t (perturbed PrimFloat.add s h i) wi w).
  rewrite (acceleration_recomputed t (perturbed PrimFloat.sub s h i) _ w).
  reflexivity.
Qed.

(** C1: when the models recompute after a reset, [update] returns and
    column [i] of the cached state partial is the central difference
    [(f(s + e_i h_i) - f(s - e_i h_i)) / (2 h_i)], for each [i] in 0..5,
    where [s] is the state the get function returns, [h] the step sizes and
    [f] the acceleration read after setting a state and updating both models
    for time [t].  The step sizes are not asked to be nonzero: the equation
    holds in IEEE arithmetic for every [h]. *)
Theorem update_caches_central_differences `{!RecomputationContract}
    (self : AerodynamicAccelerationPartial) (t : float) (w : W) (i : nat) :
  (i < 6)%nat ->
  exists self' w',
    run (update self t) w = (Returned self', w') /\
    six_get (currentAccelerationStatePartials_ self') i =
    central_difference (fun x => accelerationAt t x w)
      (state_get w) (bodyStatePerturbations_ self) i.
Proof.
  intros Hi.
  destruct (update_run self t w) as (self' & Hrun & _ & _ & _ & Hcols).
  eexists self', _. split; [exact Hrun|].
  rewrite (Hcols i Hi). apply difference_column_central.
Qed.

(** C2: when the state accessors hold one state and the models recompute
    after a reset, [update] returns with the state accessor holding the
    nominal state it held before the call, and with both models invalidated
    and updated for time [t] at that state as the last thing done: the
    acceleration they hold is the one of the nominal state. *)
Theorem update_restores_nominal_state
    `{!StateAccessorContract} `{!RecomputationContract}
    (self : AerodynamicAccelerationPartial) (t : float) (w : W) :
  exists self' w',
    run (update self t) w = (Returned self', w') /\
    state_get w' = state_get w /\
    (exists w0, w' = evaluated t (state_get w) w0) /\
    acc_getAcceleration w' = accelerationAt t (state_get w) w.
Proof.
  destruct (update_run self t w) as (self' & Hrun & _).
  eexists self', _.
  split; [exact Hrun|]. split; [apply state_get_evaluated|].
  split; [eexists; reflexivity|].
  apply (acceleration_recomputed t (state_get w) _ w).
Qed.


(** [update] itself checks no step size: it divides by [2.0 * h_i] whatever
    the object holds, so where [h_i] compared equal to zero every entry of
    column [i] would be a not-a-number or an infinity.  It relies on the
    step sizes it is given at construction. *)
Lemma update_divides_by_zero_steps
    (self : AerodynamicAccelerationPartial) (t : float) (w : W) :
  exists self' w',
    run (update self t) w = (Returned self', w') /\
    forall i r, (i < 6)%nat -> (r < 3)%nat ->
      (six_get (bodyStatePerturbations_ self) i =? 0)%float = true ->
      isfinite (coeff3x6 (currentAccelerationStatePartials_ self') r i) = false.
Proof.
  destruct (update_run self t w) as (self' & Hrun & _ & _ & _ & Hcols).
  eexists self', _. split; [exact Hrun|].
  intros i r Hi Hr Hzero. unfold coeff3x6.
  rewrite (Hcols i Hi). unfold difference_column.
  rewrite coeff3_Vector3d_div. apply Double.div_by_twice_zero. exact Hzero.
Qed.

End UpdateClaims.

(** ** The calls of [update] *)

Lemma evaluations_bracketed (t : float) (s : Vector6d) (xs : list Vector6d)
    (before after : list call) (t1 t2 : float) :
  (flat_map (evaluation_calls t) xs ++ restoration_calls t s)%list =
  (before ++
   [call_updateConditions t1; call_updateMembers t2; call_getAcceleration] ++
   after)%list ->
  (exists before' x,
     before =
     (before' ++ [call_resetCurrentTime TUDAT_NAN; call_resetTime TUDAT_NAN;
                  call_vehicleStateSetFunction x])%list) /\
  (exists after',
     after = call_resetCurrentTime TUDAT_NAN :: call_resetTime TUDAT_NAN :: after').
Proof.
  revert before. induction xs as [|x xs IH]; intros before Heq.
  - exfalso. simpl in Heq.
    do 6 (destruct before as [|? before]; simpl in Heq; [discriminate Heq|]).
    discriminate Heq.
  - cbn [flat_map evaluation_calls app] in Heq.
    destruct before as [|c1 before]; simpl in Heq; [discriminate Heq|].
    destruct before as [|c2 before]; simpl in Heq; [discriminate Heq|].
    destruct before as [|c3 before]; simpl in Heq; [discriminate Heq|].
    destruct before as [|c4 before]; simpl in Heq.
    { injection Heq as <- <- <- _ _ <-. split.
      - exists [], x. reflexivity.
      - destruct xs; simpl; eexists; reflexivity. }
    destruct before as [|c5 before]; simpl in Heq; [discriminate Heq|].
    destruct before as [|c6 before]; simpl in Heq; [discriminate Heq|].
    injection Heq as <- <- <- <- <- <- Heq.
    destruct (IH before Heq) as [(before' & x' & ->) Hafter].
    split; [|exact Hafter].
    exists (evaluation_calls t x ++ before')%list, x'. reflexivity.
Qed.

(** C7: in every run of [update] the calls are the read of the nominal
    state, then for each component the plus and the minus evaluation, then
    the restoration; each evaluation and the restoration open with
    [resetCurrentTime( TUDAT_NAN )] and [resetTime( TUDAT_NAN )].  So there
    are twelve evaluations, each update of the two models followed by the
    read of the acceleration comes right after both resets and the setting
    of a state, and is followed at once by both resets again.  The value
    passed to the resets compares unequal to every time. *)
Theorem update_resets_around_every_evaluation {W : Type} `{Collaborators W}
    (self : AerodynamicAccelerationPartial) (t : float) (w : W) :
  let calls := trace (update self t) w in
  calls =
    (call_vehicleStateGetFunction ::
     flat_map (iteration_calls t (state_get w) (bodyStatePerturbations_ self))
       (seq 0 6) ++
     restoration_calls t (state_get w))%list /\
  List.length (filter is_getAcceleration calls) = 12%nat /\
  (forall before after t1 t2,
     calls =
       (before ++
        [call_updateConditions t1; call_updateMembers t2; call_getAcceleration] ++
        after)%list ->
     (exists before' x,
        before =
        (before' ++ [call_resetCurrentTime TUDAT_NAN; call_resetTime TUDAT_NAN;
                     call_vehicleStateSetFunction x])%list) /\
     (exists after',
        after =
        call_resetCurrentTime TUDAT_NAN :: call_resetTime TUDAT_NAN :: after')) /\
  (forall t', (t' =? TUDAT_NAN)%float = false /\ (TUDAT_NAN =? t')%float = false).
Proof.
  cbv zeta. rewrite update_trace.
  split; [reflexivity|]. split; [reflexivity|]. split.
  - intros before after t1 t2 Heq.
    destruct before as [|c before]; simpl in Heq; [discriminate Heq|].
    injection Heq as <- Heq.
    pose proof (evaluations_bracketed t (state_get w)
                  (flat_map
                     (fun i =>
                        [perturbed PrimFloat.add (state_get w)
                           (bodyStatePerturbations_ self) i;
                         perturbed PrimFloat.sub (state_get w)
                           (bodyStatePerturbations_ self) i])
                     (seq 0 6))
                  before after t1 t2 Heq) as [(before' & x & ->) Hafter].
    split; [|exact Hafter].
    exists (call_vehicleStateGetFunction :: before'), x. reflexivity.
  - intros t'. split; [apply Double.eqb_nan_r | apply Double.eqb_nan_l].
Qed.

(** ** The concrete collaborators keep both promises *)

Lemma TestWorld_state_accessor_contract : @StateAccessorContract TestWorld _.
Proof.
  split; intros; simpl; try reflexivity.
  - unfold TestWorld_updateConditions.
    destruct (t =? conditionsTime w)%float; reflexivity.
  - unfold TestWorld_updateMembers.
    destruct (accelerationTime w =? t)%float; reflexivity.
Qed.

Lemma TestWorld_recomputation_contract : @RecomputationContract TestWorld _.
Proof.
  split. intros t x w1 w2. unfold accelerationAt, evaluated. simpl.
  unfold TestWorld_updateMembers, TestWorld_updateConditions. simpl.
  unfold TUDAT_NAN. rewrite !Double.eqb_nan_r. simpl.
  rewrite !Double.eqb_nan_l. reflexivity.
Qed.

(** ** The theorems at concrete inputs *)

(** The end-to-end scenario: the acceleration is [-(rho S / 2) v^2] along x,
    so the only nonzero column of the state partial is the one of the
    velocity component the vehicle moves along, and it holds
    [-(rho S) v = -(7500 * 2^-28)]. *)
Example update_on_test_world :
  fst (run (update test_partial 0) test_world) =
  Returned
    (mkAerodynamicAccelerationPartial "Vehicle" "Earth"
       (bodyStatePerturbations_ test_partial)
       (mkSix (mkVector3d 0 0 0) (mkVector3d 0 0 0) (mkVector3d 0 0 0)
              (mkVector3d 0 0 0)
              (mkVector3d (- (7500 * 0x1p-28)) 0 0)
              (mkVector3d 0 0 0))%float) /\
  state_get (snd (run (update test_partial 0) test_world)) = state_get test_world.
Proof. split; vm_compute; reflexivity. Qed.

(** C1 on the test world, for the component the vehicle moves along. *)
Lemma update_caches_central_differences_witness :
  (4 < 6)%nat /\
  exists self' w',
    run (update test_partial 0) test_world = (Returned self', w') /\
    six_get (currentAccelerationStatePartials_ self') 4 =
    central_difference (fun x => accelerationAt 0 x test_world)
      (state_get test_world) (bodyStatePerturbations_ test_partial) 4.
Proof.
  split; [lia|].
  apply (@update_caches_central_differences TestWorld _
           TestWorld_recomputation_contract test_partial 0%float test_world 4).
  lia.
Defined.

(** C2 on the test world. *)
Lemma update_restores_nominal_state_witness :
  exists self' w',
    run (update test_partial 0) test_world = (Returned self', w') /\
    state_get w' = state_get test_world /\
    (exists w0, w' = evaluated 0 (state_get test_world) w0) /\
    acc_getAcceleration w' = accelerationAt 0 (state_get test_world) test_world.
Proof.
  exact (@update_restores_nominal_state TestWorld _
           TestWorld_state_accessor_contract TestWorld_recomputation_contract
           test_partial 0%float test_world).
Defined.


(** C10 for the velocity accessor of the accelerating body, subtracting from
    a matrix of ones at offset (0, 3). *)
Lemma accessors_write_only_their_block_witness :
  In wrtVelocityOfAcceleratingBody
     [ wrtPositionOfAcceleratedBody; wrtVelocityOfAcceleratedBody;
       wrtPositionOfAcceleratingBody; wrtVelocityOfAcceleratingBody ] /\
  exists partialMatrix',
    wrtVelocityOfAcceleratingBody sample_partial ones6x6 false 0 3 =
      Some (sample_partial, partialMatrix') /\
    coeff partialMatrix' 1 4 = (-4)%float /\
    rows partialMatrix' = 6 /\ cols partialMatrix' = 6 /\
    forall r c, in_block3x3 0 3 r c = false -> coeff partialMatrix' r c = 1%float.
Proof.
  split; [simpl; auto|].
  eexists. split; [reflexivity|]. split; [reflexivity|].
  apply (accessors_write_only_their_block wrtVelocityOfAcceleratingBody
           sample_partial sample_partial ones6x6 _ false 0 3);
    [simpl; auto | reflexivity].
Defined.

(** C3 for a cache of finite entries, on 6x6 blocks at offset (3, 0). *)
Lemma accelerated_and_accelerating_blocks_are_negations_witness :
  block3x3_fits (MatrixXd_Zero 6 6) 3 0 = true /\
  exists position position' velocity velocity',
    wrtPositionOfAcceleratedBody sample_partial (MatrixXd_Zero 6 6) true 3 0
      = Some (sample_partial, position) /\
    wrtPositionOfAcceleratingBody sample_partial (MatrixXd_Zero 6 6) true 3 0
      = Some (sample_partial, position') /\
    wrtVelocityOfAcceleratedBody sample_partial (MatrixXd_Zero 6 6) true 3 0
      = Some (sample_partial, velocity) /\
    wrtVelocityOfAcceleratingBody sample_partial (MatrixXd_Zero 6 6) true 3 0
      = Some (sample_partial, velocity') /\
    block3x3_free_of_nan (currentAccelerationStatePartials_ sample_partial) 0 = true /\
    block3x3_free_of_nan (currentAccelerationStatePartials_ sample_partial) 3 = true /\
    negations position position' /\ negations velocity velocity'.
Proof.
  split; [reflexivity|].
  destruct (accelerated_and_accelerating_blocks_are_negations
              sample_partial 6 6 3 0 eq_refl)
    as (p & p' & v & v' & Hp & Hp' & Hv & Hv' & _ & Hposition & Hvelocity).
  exists p, p', v, v'. repeat (split; [assumption|]).
  split; [reflexivity|]. split; [reflexivity|]. split.
  - apply Hposition. reflexivity.
  - apply Hvelocity. reflexivity.
Defined.

(** C9 for a cache of finite entries, on a 6x6 block at offset (3, 0). *)
Lemma add_then_subtract_restores_zeros_witness :
  block3x3_fits (MatrixXd_Zero 6 6) 3 0 = true /\
  block3x3_finite (currentAccelerationStatePartials_ sample_partial) 0 = true /\
  exists added restored,
    wrtPositionOfAcceleratedBody sample_partial (MatrixXd_Zero 6 6) true 3 0
      = Some (sample_partial, added) /\
    wrtPositionOfAcceleratedBody sample_partial added false 3 0
      = Some (sample_partial, restored) /\
    coeff added 4 2 = 8%float /\
    rows restored = 6 /\ cols restored = 6 /\
    forall r c, coeff restored r c = 0%float.
Proof.
  split; [reflexivity|]. split; [reflexivity|].
  destruct (add_then_subtract_restores_zeros sample_partial 6 6 3 0 eq_refl eq_refl)
    as (added & restored & Hadded & Hrestored & Hzero).
  exists added, restored. split; [exact Hadded|]. split; [exact Hrestored|].
  split; [|exact Hzero].
  vm_compute in Hadded. injection Hadded as <-. reflexivity.
Defined.

(** ** More on the signed accessors *)

(** Each accessor reads the position columns or the velocity columns, and
    adds when its flag agrees with its role. *)
Lemma accessor_roles
    (accessor : AerodynamicAccelerationPartial -> MatrixXd -> bool -> Z -> Z ->
                option (AerodynamicAccelerationPartial * MatrixXd)) :
  In accessor [ wrtPositionOfAcceleratedBody; wrtVelocityOfAcceleratedBody;
                wrtPositionOfAcceleratingBody; wrtVelocityOfAcceleratingBody ] ->
  exists (accelerated : bool) (column : nat),
    (column = 0 \/ column = 3)%nat /\
    forall self m add sr sc,
      accessor self m add sr sc =
      option_map (pair self)
        (block3x3_assign
           (if Bool.eqb add accelerated then PrimFloat.add else PrimFloat.sub)
           m sr sc
           (block3x3_of (currentAccelerationStatePartials_ self) column)).
Proof.
  intros [<- | [<- | [<- | [<- | []]]]].
  - exists true, 0%nat. split; [auto|]. intros self m [] sr sc; reflexivity.
  - exists true, 3%nat. split; [auto|]. intros self m [] sr sc; reflexivity.
  - exists false, 0%nat. split; [auto|]. intros self m [] sr sc; reflexivity.
  - exists false, 3%nat. split; [auto|]. intros self m [] sr sc; reflexivity.
Qed.

(** [0 - c + c] is [+0] for every finite [c]. *)
Lemma zero_sub_add (c : float) :
  isfinite c = true -> (0 - c + c)%float = 0%float.
Proof.
  intros Hc. apply Prim2SF_inj.
  rewrite FloatAxioms.add_spec, FloatAxioms.sub_spec, Double.Prim2SF_zero.
  apply Double.isfinite_spec in Hc.
  destruct Hc as [[s ->] | [s [m [e ->]]]].
  - destruct s; reflexivity.
  - unfold SF64add, SF64sub. simpl.
    rewrite Z.min_id, Double.shl_align_same. simpl.
    destruct s; simpl; rewrite ?Z.pos_sub_diag; reflexivity.
Qed.

Lemma Matrix3x6_finite_entry (m : Matrix3x6) (column r c : nat) :
  Matrix3x6_finite m = true -> (column = 0 \/ column = 3)%nat ->
  (r < 3)%nat -> (c < 3)%nat ->
  isfinite (coeff3x6 m r (column + c)) = true.
Proof.
  unfold Matrix3x6_finite. intros Hall Hcolumn Hr Hc.
  apply Bool.andb_true_iff in Hall. destruct Hall as [H0 H3].
  destruct Hcolumn as [-> | ->].
  - exact (block3x3_all_spec _ m 0%nat H0 r c Hr Hc).
  - exact (block3x3_all_spec _ m 3%nat H3 r c Hr Hc).
Qed.

(** X1: inside the 3x3 block, each accessor adds the cached entry with a
    sign: the accelerated-body accessors add [c] when addContribution is
    true and [-c] when it is false, the accelerating-body accessors the
    other way round; position accessors read columns 0..2 of the cache,
    velocity accessors columns 3..5. *)
Theorem accessors_add_signed_entries
    (self : AerodynamicAccelerationPartial) (partialMatrix : MatrixXd)
    (addContribution : bool) (startRow startColumn r c : Z) :
  block3x3_fits partialMatrix startRow startColumn = true ->
  in_block3x3 startRow startColumn r c = true ->
  exists position position' velocity velocity',
    wrtPositionOfAcceleratedBody self partialMatrix addContribution startRow startColumn
      = Some (self, position) /\
    wrtPositionOfAcceleratingBody self partialMatrix addContribution startRow startColumn
      = Some (self, position') /\
    wrtVelocityOfAcceleratedBody self partialMatrix addContribution startRow startColumn
      = Some (self, velocity) /\
    wrtVelocityOfAcceleratingBody self partialMatrix addContribution startRow startColumn
      = Some (self, velocity') /\
    let i := Z.to_nat (r - startRow) in
    let j := Z.to_nat (c - startColumn) in
    let cache := currentAccelerationStatePartials_ self in
    coeff position r c =
      (coeff partialMatrix r c + signed addContribution (coeff3x6 cache i j))%float /\
    coeff position' r c =
      (coeff partialMatrix r c + signed (negb addContribution) (coeff3x6 cache i j))%float /\
    coeff velocity r c =
      (coeff partialMatrix r c + signed addContribution (coeff3x6 cache i (3 + j)))%float /\
    coeff velocity' r c =
      (coeff partialMatrix r c +
       signed (negb addContribution) (coeff3x6 cache i (3 + j)))%float.
Proof.
  intros Hfits Hin.
  unfold wrtPositionOfAcceleratedBody, wrtPositionOfAcceleratingBody,
    wrtVelocityOfAcceleratedBody, wrtVelocityOfAcceleratingBody.
  destruct addContribution; rewrite !block3x3_assign_fits by exact Hfits;
    simpl; do 4 eexists; do 4 (split; [reflexivity|]);
    simpl; rewrite Hin; unfold block3x3_of; simpl;
    rewrite <- ?Double.sub_add_opp; repeat split.
Qed.

(** X2: on a zero-initialized block, two calls of one accessor at one
    offset with opposite flags, in either order, leave every entry zero when
    all entries of the cached partial are finite.  This holds for each of
    the four accessors. *)
Theorem accessors_opposite_flags_cancel
    (accessor : AerodynamicAccelerationPartial -> MatrixXd -> bool -> Z -> Z ->
                option (AerodynamicAccelerationPartial * MatrixXd))
    (self : AerodynamicAccelerationPartial) (nr nc startRow startColumn : Z)
    (first : bool) :
  In accessor [ wrtPositionOfAcceleratedBody; wrtVelocityOfAcceleratedBody;
                wrtPositionOfAcceleratingBody; wrtVelocityOfAcceleratingBody ] ->
  block3x3_fits (MatrixXd_Zero nr nc) startRow startColumn = true ->
  Matrix3x6_finite (currentAccelerationStatePartials_ self) = true ->
  exists once twice,
    accessor self (MatrixXd_Zero nr nc) first startRow startColumn
      = Some (self, once) /\
    accessor self once (negb first) startRow startColumn = Some (self, twice) /\
    rows twice = nr /\ cols twice = nc /\
    forall r c, coeff twice r c = 0%float.
Proof.
  intros Hin Hfits Hfinite.
  destruct (accessor_roles accessor Hin) as (accelerated & column & Hcolumn & Heq).
  rewrite Heq, block3x3_assign_fits by exact Hfits.
  eexists. eexists. split; [reflexivity|].
  rewrite Heq, block3x3_assign_fits by exact Hfits.
  split; [reflexivity|]. simpl. split; [reflexivity|]. split; [reflexivity|].
  intros r c. destruct (in_block3x3 startRow startColumn r c) eqn:Hblock;
    [|reflexivity].
  destruct (in_block3x3_offsets _ _ _ _ Hblock) as [Hr Hc].
  pose proof (Matrix3x6_finite_entry _ column _ _ Hfinite Hcolumn Hr Hc) as Hentry.
  unfold block3x3_of.
  destruct first, accelerated; simpl;
    (apply Double.zero_add_sub || apply zero_sub_add); exact Hentry.
Qed.

Lemma in_block3x3_disjoint (sr1 sc1 sr2 sc2 r c : Z) :
  blocks_disjoint sr1 sc1 sr2 sc2 = true ->
  in_block3x3 sr1 sc1 r c = true -> in_block3x3 sr2 sc2 r c = false.
Proof. unfold blocks_disjoint, in_block3x3. lia. Qed.

(** X3: contributions to disjoint blocks commute.  Two accessor calls, of
    any two of the four accessors, on any two partials and with any flags,
    whose 3x3 blocks share no entry, give the same matrix in either
    order. *)
Theorem accessors_on_disjoint_blocks_commute
    (accessor1 accessor2 :
       AerodynamicAccelerationPartial -> MatrixXd -> bool -> Z -> Z ->
       option (AerodynamicAccelerationPartial * MatrixXd))
    (self1 self2 : AerodynamicAccelerationPartial) (partialMatrix : MatrixXd)
    (add1 add2 : bool) (startRow1 startColumn1 startRow2 startColumn2 : Z) :
  In accessor1 [ wrtPositionOfAcceleratedBody; wrtVelocityOfAcceleratedBody;
                 wrtPositionOfAcceleratingBody; wrtVelocityOfAcceleratingBody ] ->
  In accessor2 [ wrtPositionOfAcceleratedBody; wrtVelocityOfAcceleratedBody;
                 wrtPositionOfAcceleratingBody; wrtVelocityOfAcceleratingBody ] ->
  block3x3_fits partialMatrix startRow1 startColumn1 = true ->
  block3x3_fits partialMatrix startRow2 startColumn2 = true ->
  blocks_disjoint startRow1 startColumn1 startRow2 startColumn2 = true ->
  exists m1 m12 m2 m21,
    accessor1 self1 partialMatrix add1 startRow1 startColumn1 = Some (self1, m1) /\
    accessor2 self2 m1 add2 startRow2 startColumn2 = Some (self2, m12) /\
    accessor2 self2 partialMatrix add2 startRow2 startColumn2 = Some (self2, m2) /\
    accessor1 self1 m2 add1 startRow1 startColumn1 = Some (self1, m21) /\
    rows m12 = rows m21 /\ cols m12 = cols m21 /\
    forall r c, coeff m12 r c = coeff m21 r c.
Proof.
  intros Hin1 Hin2 Hfits1 Hfits2 Hdisjoint.
  destruct (accessor_roles accessor1 Hin1) as (acc1 & column1 & _ & Heq1).
  destruct (accessor_roles accessor2 Hin2) as (acc2 & column2 & _ & Heq2).
  rewrite !Heq1, !Heq2.
  rewrite (block3x3_assign_fits _ partialMatrix startRow1) by exact Hfits1.
  rewrite (block3x3_assign_fits _ partialMatrix startRow2) by exact Hfits2.
  cbn [option_map]. do 4 eexists.
  split; [reflexivity|].
  split; [rewrite Heq2, block3x3_assign_fits by exact Hfits2; reflexivity|].
  split; [reflexivity|].
  split; [rewrite Heq1, block3x3_assign_fits by exact Hfits1; reflexivity|].
  simpl.
  split; [reflexivity|]. split; [reflexivity|]. intros r c.
  destruct (in_block3x3 startRow1 startColumn1 r c) eqn:H1.
  - rewrite (in_block3x3_disjoint _ _ _ _ _ _ Hdisjoint H1). reflexivity.
  - reflexivity.
Qed.

(** ** More on [update] *)

Section UpdateExtras.

Context {W : Type} `{Collaborators W}.

(** X4: [update] overwrites the whole cache and nothing else.  Whatever the
    cache held before, the object and the world after the call are the same;
    the body names and the step sizes are kept.  This needs no promise from
    the collaborators. *)
Theorem update_overwrites_whole_cache
    (accelerated accelerating : string) (h : Vector6d)
    (cache1 cache2 : Matrix3x6) (t : float) (w : W) :
  run (update (mkAerodynamicAccelerationPartial accelerated accelerating h cache1) t) w =
  run (update (mkAerodynamicAccelerationPartial accelerated accelerating h cache2) t) w /\
  exists cache' w',
    run (update (mkAerodynamicAccelerationPartial accelerated accelerating h cache1) t) w =
    (Returned (mkAerodynamicAccelerationPartial accelerated accelerating h cache'), w').
Proof.
  destruct (update_run
              (mkAerodynamicAccelerationPartial accelerated accelerating h cache1) t w)
    as (self1 & Hrun1 & Ha1 & Hb1 & Hp1 & Hcols1).
  destruct (update_run
              (mkAerodynamicAccelerationPartial accelerated accelerating h cache2) t w)
    as (self2 & Hrun2 & Ha2 & Hb2 & Hp2 & Hcols2).
  cbv zeta in Hrun1, Hrun2. simpl in *.
  assert (Hsame : self1 = self2).
  { assert (Hcache : currentAccelerationStatePartials_ self1 =
                     currentAccelerationStatePartials_ self2).
    { apply six_ext. intros i Hi. rewrite (Hcols1 i Hi), (Hcols2 i Hi). reflexivity. }
    destruct self1, self2; simpl in *; congruence. }
  split.
  - rewrite Hrun1, Hrun2, Hsame. reflexivity.
  - rewrite Hrun1. destruct self1; simpl in *; subst. eexists. eexists. reflexivity.
Qed.

(** X5: [update] sets thirteen states.  Each of the first twelve differs
    from the nominal state in one component at most, which holds the nominal
    value plus or minus the step size of that component; the thirteenth is
    the nominal state.  This needs no promise from the collaborators. *)
Theorem update_sets_one_component_at_a_time
    (self : AerodynamicAccelerationPartial) (t : float) (w : W) :
  let s := state_get w in
  let h := bodyStatePerturbations_ self in
  exists probes,
    states_set (trace (update self t) w) = (probes ++ [s])%list /\
    List.length probes = 12%nat /\
    forall x, In x probes ->
      exists i, (i < 6)%nat /\
        (six_get x i = (six_get s i + six_get h i)%float \/
         six_get x i = (six_get s i - six_get h i)%float) /\
        forall j, (j < 6)%nat -> j <> i -> six_get x j = six_get s j.
Proof.
  cbv zeta. rewrite update_trace.
  exists (flat_map
            (fun i =>
               [perturbed PrimFloat.add (state_get w) (bodyStatePerturbations_ self) i;
                perturbed PrimFloat.sub (state_get w) (bodyStatePerturbations_ self) i])
            (seq 0 6)).
  split; [reflexivity|]. split; [reflexivity|].
  intros x Hin. apply in_flat_map in Hin. destruct Hin as (i & Hi & Hx).
  apply in_seq in Hi. exists i. split; [lia|].
  destruct Hx as [<- | [<- | []]]; unfold perturbed.
  - split; [left; apply six_get_set_eq; lia|].
    intros j Hj Hne. apply six_get_set_ne; assumption.
  - split; [right; apply six_get_set_eq; lia|].
    intros j Hj Hne. apply six_get_set_ne; assumption.
Qed.

End UpdateExtras.

(** X6: both parameter lookups are consistent.  For every parameter, the
    scalar overload and the vector overload return without calling a
    collaborator (their list of calls is empty and the world is as it was),
    report zero columns exactly when the function returned is empty, and a
    function returned produces a block of three rows and as many columns as
    reported. *)
Theorem parameter_lookups_consistent {W : Type} `{Collaborators W}
    (Quaterniond_mul : Quaterniond -> Vector3d -> Vector3d)
    (self : AerodynamicAccelerationPartial) (parameter : EstimatableParameter)
    (w : W) :
  lookup_consistent (getParameterPartialFunction Quaterniond_mul self parameter) w /\
  lookup_consistent (getParameterPartialFunction_VectorXd self parameter) w.
Proof.
  split.
  - unfold lookup_consistent, getParameterPartialFunction.
    destruct (EstimatebleParametersEnum_eqb _ _);
      [destruct (String.eqb _ _)|]; simpl; do 2 eexists;
      (split; [reflexivity|]); (split; [reflexivity|]);
      (split; [split; congruence|]).
    + intros f [= <-] accelerationPartial w'. eexists. repeat split.
    + intros f Hf. discriminate.
    + intros f Hf. discriminate.
  - unfold lookup_consistent, getParameterPartialFunction_VectorXd. simpl.
    do 2 eexists. split; [reflexivity|]. split; [reflexivity|].
    split; [split; reflexivity|].
    intros f Hf. discriminate.
Qed.

(** ** [update] followed by the accessors *)

(** [(a - a) / y] compares equal to zero when [a] is finite and [y] is a
    number other than zero. *)
Lemma sub_self_div (a y : float) :
  isfinite a = true -> isnan y = false -> (y =? 0)%float = false ->
  ((a - a) / y =? 0)%float = true.
Proof.
  intros Ha Hy Hy0.
  assert (Hzero : Prim2SF (a - a)%float = S754_zero false).
  { rewrite FloatAxioms.sub_spec. apply Double.isfinite_spec in Ha.
    destruct Ha as [[s ->] | [s [m [e ->]]]].
    - destruct s; reflexivity.
    - unfold SF64sub. simpl. rewrite Z.min_id, Double.shl_align_same. simpl.
      rewrite Z.sub_diag. reflexivity. }
  apply Double.isnan_false in Hy.
  rewrite FloatAxioms.eqb_spec, Double.Prim2SF_zero in Hy0.
  rewrite FloatAxioms.eqb_spec, FloatAxioms.div_spec, Hzero, Double.Prim2SF_zero.
  destruct (Prim2SF y) as [s | s | | s m e]; try congruence; try reflexivity.
  simpl in Hy0. discriminate.
Qed.

Section UpdateThenRead.

Context {W : Type} `{Collaborators W} `{!RecomputationContract}.

(** X7: after [update], the accessors of the accelerated body with
    addContribution = true write into a zero-initialized block, at entry
    (startRow + i, startColumn + j), the value [0 + d] where [d] is
    coefficient [i] of the central difference along state component [j]
    (position accessor) or [3 + j] (velocity accessor). *)
Theorem update_then_accessors_read_central_differences
    (self : AerodynamicAccelerationPartial) (t : float) (w : W)
    (nr nc startRow startColumn : Z) :
  block3x3_fits (MatrixXd_Zero nr nc) startRow startColumn = true ->
  exists self' w' position velocity,
    run (update self t) w = (Returned self', w') /\
    wrtPositionOfAcceleratedBody self' (MatrixXd_Zero nr nc) true startRow startColumn
      = Some (self', position) /\
    wrtVelocityOfAcceleratedBody self' (MatrixXd_Zero nr nc) true startRow startColumn
      = Some (self', velocity) /\
    forall i j, (i < 3)%nat -> (j < 3)%nat ->
      let difference :=
        central_difference (fun x => accelerationAt t x w)
          (state_get w) (bodyStatePerturbations_ self) in
      coeff position (startRow + Z.of_nat i) (startColumn + Z.of_nat j) =
        (0 + coeff3 (difference j) i)%float /\
      coeff velocity (startRow + Z.of_nat i) (startColumn + Z.of_nat j) =
        (0 + coeff3 (difference (3 + j)%nat) i)%float.
Proof.
  intros Hfits.
  destruct (update_run self t w) as (self' & Hrun & _ & _ & _ & Hcols).
  eexists self', _, _, _. split; [exact Hrun|].
  split; [unfold wrtPositionOfAcceleratedBody;
          rewrite block3x3_assign_fits by exact Hfits; reflexivity|].
  split; [unfold wrtVelocityOfAcceleratedBody;
          rewrite block3x3_assign_fits by exact Hfits; reflexivity|].
  intros i j Hi Hj. cbv zeta. cbn [coeff].
  assert (Hin : in_block3x3 startRow startColumn
                  (startRow + Z.of_nat i) (startColumn + Z.of_nat j) = true)
    by (unfold in_block3x3; lia).
  rewrite Hin. unfold block3x3_of, coeff3x6.
  replace (startRow + Z.of_nat i - startRow) with (Z.of_nat i) by lia.
  replace (startColumn + Z.of_nat j - startColumn) with (Z.of_nat j) by lia.
  rewrite !Nat2Z.id. cbn [Nat.add MatrixXd_Zero coeff].
  rewrite (Hcols j ltac:(lia)), (Hcols (S (S (S j))) ltac:(lia)).
  rewrite !(difference_column_central t _ _ _ _ w).
  split; reflexivity.
Qed.

(** X8: a state component the acceleration does not depend on gets a zero
    column.  If the accelerations at the plus and the minus perturbation of
    component [i] are equal and finite, and [2.0 * h_i] is a number other
    than zero, every entry of column [i] compares equal to zero after
    [update]. *)
Theorem update_zero_column_where_independent
    (self : AerodynamicAccelerationPartial) (t : float) (w : W) (i : nat) :
  let s := state_get w in
  let h := bodyStatePerturbations_ self in
  (i < 6)%nat ->
  accelerationAt t (perturbed PrimFloat.add s h i) w =
    accelerationAt t (perturbed PrimFloat.sub s h i) w ->
  Vector3d_finite (accelerationAt t (perturbed PrimFloat.add s h i) w) = true ->
  isnan (2.0 * six_get h i)%float = false ->
  (2.0 * six_get h i =? 0)%float = false ->
  exists self' w',
    run (update self t) w = (Returned self', w') /\
    forall r, (r < 3)%nat ->
      (coeff3x6 (currentAccelerationStatePartials_ self') r i =? 0)%float = true.
Proof.
  cbv zeta. intros Hi Hsame Hfinite Hnan Hzero.
  destruct (update_run self t w) as (self' & Hrun & _ & _ & _ & Hcols).
  eexists self', _. split; [exact Hrun|].
  intros r Hr. unfold coeff3x6. rewrite (Hcols i Hi).
  rewrite (difference_column_central t _ _ _ _ w).
  unfold central_difference. rewrite <- Hsame.
  unfold Vector3d_finite in Hfinite.
  apply Bool.andb_true_iff in Hfinite. destruct Hfinite as [Hxy Hz].
  apply Bool.andb_true_iff in Hxy. destruct Hxy as [Hx Hy].
  destruct r as [|[|r]]; simpl; apply sub_self_div; assumption.
Qed.

End UpdateThenRead.

(** ** The further theorems at concrete inputs *)

(** X1 on a matrix of ones, subtracting at offset (0, 3). *)
Lemma accessors_add_signed_entries_witness :
  block3x3_fits ones6x6 0 3 = true /\
  in_block3x3 0 3 1 4 = true /\
  exists position position' velocity velocity',
    wrtPositionOfAcceleratedBody sample_partial ones6x6 false 0 3
      = Some (sample_partial, position) /\
    wrtPositionOfAcceleratingBody sample_partial ones6x6 false 0 3
      = Some (sample_partial, position') /\
    wrtVelocityOfAcceleratedBody sample_partial ones6x6 false 0 3
      = Some (sample_partial, velocity) /\
    wrtVelocityOfAcceleratingBody sample_partial ones6x6 false 0 3
      = Some (sample_partial, velocity') /\
    coeff position 1 4 = 0.5%float /\
    coeff position' 1 4 = 1.5%float /\
    coeff velocity 1 4 = 6%float /\
    coeff velocity' 1 4 = (-4)%float.
Proof.
  split; [reflexivity|]. split; [reflexivity|].
  destruct (accessors_add_signed_entries sample_partial ones6x6 false 0 3 1 4
              eq_refl eq_refl)
    as (p & p' & v & v' & Hp & Hp' & Hv & Hv' & Ep & Ep' & Ev & Ev').
  exists p, p', v, v'. do 4 (split; [assumption|]).
  rewrite Ep, Ep', Ev, Ev'. repeat split; reflexivity.
Defined.

(** X2 for the velocity accessor of the accelerating body, subtracting
    first. *)
Lemma accessors_opposite_flags_cancel_witness :
  In wrtVelocityOfAcceleratingBody
     [ wrtPositionOfAcceleratedBody; wrtVelocityOfAcceleratedBody;
       wrtPositionOfAcceleratingBody; wrtVelocityOfAcceleratingBody ] /\
  block3x3_fits (MatrixXd_Zero 6 6) 3 0 = true /\
  Matrix3x6_finite (currentAccelerationStatePartials_ sample_partial) = true /\
  exists once twice,
    wrtVelocityOfAcceleratingBody sample_partial (MatrixXd_Zero 6 6) false 3 0
      = Some (sample_partial, once) /\
    wrtVelocityOfAcceleratingBody sample_partial once true 3 0
      = Some (sample_partial, twice) /\
    rows twice = 6 /\ cols twice = 6 /\
    forall r c, coeff twice r c = 0%float.
Proof.
  split; [simpl; auto|]. split; [reflexivity|]. split; [reflexivity|].
  apply (accessors_opposite_flags_cancel wrtVelocityOfAcceleratingBody
           sample_partial 6 6 3 0 false);
    [simpl; auto | reflexivity | reflexivity].
Defined.

(** X3 for a position contribution of one partial at (0, 0) and a velocity
    contribution of another at (0, 3). *)
Lemma accessors_on_disjoint_blocks_commute_witness :
  blocks_disjoint 0 0 0 3 = true /\
  exists m1 m12 m2 m21,
    wrtPositionOfAcceleratedBody sample_partial ones6x6 true 0 0
      = Some (sample_partial, m1) /\
    wrtVelocityOfAcceleratingBody nonfinite_partial m1 false 0 3
      = Some (nonfinite_partial, m12) /\
    wrtVelocityOfAcceleratingBody nonfinite_partial ones6x6 false 0 3
      = Some (nonfinite_partial, m2) /\
    wrtPositionOfAcceleratedBody sample_partial m2 true 0 0
      = Some (sample_partial, m21) /\
    rows m12 = rows m21 /\ cols m12 = cols m21 /\
    forall r c, coeff m12 r c = coeff m21 r c.
Proof.
  split; [reflexivity|].
  apply (accessors_on_disjoint_blocks_commute
           wrtPositionOfAcceleratedBody wrtVelocityOfAcceleratingBody
           sample_partial nonfinite_partial ones6x6 true false 0 0 0 3);
    [simpl; auto | simpl; auto | reflexivity | reflexivity | reflexivity].
Defined.

(** X7 on the test world: the velocity block at offset (0, 3) of a 3x6
    matrix. *)
Lemma update_then_accessors_read_central_differences_witness :
  block3x3_fits (MatrixXd_Zero 3 6) 0 3 = true /\
  exists self' w' position velocity,
    run (update test_partial 0) test_world = (Returned self', w') /\
    wrtPositionOfAcceleratedBody self' (MatrixXd_Zero 3 6) true 0 3
      = Some (self', position) /\
    wrtVelocityOfAcceleratedBody self' (MatrixXd_Zero 3 6) true 0 3
      = Some (self', velocity) /\
    forall i j, (i < 3)%nat -> (j < 3)%nat ->
      let difference :=
        central_difference (fun x => accelerationAt 0 x test_world)
          (state_get test_world) (bodyStatePerturbations_ test_partial) in
      coeff position (0 + Z.of_nat i) (3 + Z.of_nat j) =
        (0 + coeff3 (difference j) i)%float /\
      coeff velocity (0 + Z.of_nat i) (3 + Z.of_nat j) =
        (0 + coeff3 (difference (3 + j)%nat) i)%float.
Proof.
  split; [reflexivity|].
  apply (@update_then_accessors_read_central_differences TestWorld _
           TestWorld_recomputation_contract test_partial 0%float test_world 3 6 0 3).
  reflexivity.
Defined.

(** X8 on the test world: the acceleration does not depend on the first
    position component. *)
Lemma update_zero_column_where_independent_witness :
  (0 < 6)%nat /\
  exists self' w',
    run (update test_partial 0) test_world = (Returned self', w') /\
    forall r, (r < 3)%nat ->
      (coeff3x6 (currentAccelerationStatePartials_ self') r 0 =? 0)%float = true.
Proof.
  split; [lia|].
  apply (@update_zero_column_where_independent TestWorld _
           TestWorld_recomputation_contract test_partial 0%float test_world 0);
    [lia | reflexivity | reflexivity | reflexivity | reflexivity].
Defined.

(** ** Construction *)



(** Construction with a zero among the step sizes, a negative zero
    included, fails; construction with the step sizes of the test partial
    succeeds. *)
Example constructor_on_zero_and_nonzero_steps :
  AerodynamicAccelerationPartial_constructor (fun h => negb (isfinite h))
    (mkSix 8 8 8 0.0078125 0 0.0078125)%float
    (currentAccelerationStatePartials_ test_partial) "Vehicle" "Earth"
    = inr InvalidConfiguration /\
  AerodynamicAccelerationPartial_constructor (fun h => negb (isfinite h))
    (mkSix 8 8 (-0) 0.0078125 0.0078125 0.0078125)%float
    (currentAccelerationStatePartials_ test_partial) "Vehicle" "Earth"
    = inr InvalidConfiguration /\
  AerodynamicAccelerationPartial_constructor (fun h => negb (isfinite h))
    (bodyStatePerturbations_ test_partial)
    (currentAccelerationStatePartials_ test_partial) "Vehicle" "Earth"
    = inl test_partial.
Proof. repeat split. Qed.
